(** * terabox.py: the chunked download with progress reporting

    A shallow embedding of [download_video] (src/terabox.py, lines 85-169)
    and of the helpers it calls, with the properties of the transfer routine
    proved over it.

    Modelling conventions.
    - Python [int] is [Z]; Python [float] (percentages, clock readings,
      speeds) is read as the exact rational it denotes and modelled in [Q],
      so rounding, overflow and the infinities of binary64 arithmetic are
      not part of the model: a statement that depends on them says at which
      values the two agree ([whole_percentage], [formats]).
    - [bytes] is [list byte]; [str] is [string].
    - A raised exception is a value of type [exn]; code that can raise lives
      in the monad [M], which threads the world (files on disk, calls made to
      the chat API, log records) and keeps it when an exception propagates,
      as Python does.
    - What the network, the clock and the chat API answer is the environment
      [Env]: every theorem quantifies over it.
    - Local file operations ([open], [write], leaving the [with] block) are
      taken to succeed.
    - The logger (lines 12-19) appends every record to the file bot.log.
      The records are kept in the trace, in order, and the file system of
      the model holds the other files only: what is stated of files is
      stated of paths other than bot.log, or of the video file. *)

From Stdlib Require Import ZArith QArith Qround String Ascii List Sorted Lia Lqa.
From stdpp Require Import gmap strings list pretty.
Import ListNotations.

Set Warnings "-notation-for-abbreviation,-register-all".

Local Open Scope string_scope.
Local Open Scope Z_scope.
Local Open Scope list_scope.

(** ** Exceptions *)

Inductive exn : Type :=
| Exception (msg : string)        (* raise Exception(...) *)
| KeyError (key : string)         (* dict lookup of a missing key *)
| IndexError
| TypeError
| ValueError
| ZeroDivisionError
| RequestException                (* requests.exceptions.RequestException *)
| ApiTelegramException.           (* what the chat API client raises *)

Definition is_RequestException (e : exn) : bool :=
  match e with RequestException => true | _ => false end.

(** Pure computations that may raise. *)
Definition Exc (A : Type) : Type := (exn + A)%type.

Definition bindE {A B} (m : Exc A) (k : A -> Exc B) : Exc B :=
  match m with inl e => inl e | inr a => k a end.

Notation "'let?' x ':=' m 'in' k" := (bindE m (fun x => k))
  (at level 10, x name, m at level 100, k at level 200).

(** ** JSON values as [response.json()] returns them *)

Inductive json : Type :=
| JNull
| JBool (b : bool)
| JNum (q : Q)
| JStr (s : string)
| JList (l : list json)
| JDict (d : list (string * json)).

(** A [dict] is kept as its list of items; [dict_get] is the lookup of a
    key (the first item with that key). *)
Fixpoint dict_get (d : list (string * json)) (k : string) : option json :=
  match d with
  | [] => None
  | (k', v) :: d' => if String.eqb k' k then Some v else dict_get d' k
  end.

(** [bool(x)] *)
Definition truthy (j : json) : bool :=
  match j with
  | JNull => false
  | JBool b => b
  | JNum q => negb (Qeq_bool q 0)
  | JStr s => negb (String.eqb s EmptyString)
  | JList l => match l with [] => false | _ => true end
  | JDict d => match d with [] => false | _ => true end
  end.

(** [k in x] for a string [k] *)
Definition py_in (k : string) (j : json) : Exc bool :=
  match j with
  | JDict d => inr (match dict_get d k with Some _ => true | None => false end)
  | JList l =>
      inr (existsb (fun x => match x with JStr s => String.eqb s k | _ => false end) l)
  | JStr s => inr (match String.index 0 k s with Some _ => true | None => false end)
  | _ => inl TypeError
  end.

(** [x[k]] for a string [k] *)
Definition getitem (j : json) (k : string) : Exc json :=
  match j with
  | JDict d => match dict_get d k with Some v => inr v | None => inl (KeyError k) end
  | _ => inl TypeError
  end.

(** [x[0]] *)
Definition getitem0 (j : json) : Exc json :=
  match j with
  | JList l => match l with x :: _ => inr x | [] => inl IndexError end
  | JStr s =>
      match s with
      | String c _ => inr (JStr (String c EmptyString))
      | EmptyString => inl IndexError
      end
  | JDict _ => inl (KeyError "0")
  | _ => inl TypeError
  end.

(** [len(x)] *)
Definition len (j : json) : Exc Z :=
  match j with
  | JList l => inr (Z.of_nat (length l))
  | JStr s => inr (Z.of_nat (String.length s))
  | JDict d => inr (Z.of_nat (length d))
  | _ => inl TypeError
  end.

(** [a / b] on numbers: true division, raising on a zero divisor. *)
Definition truediv (a b : Q) : Exc Q :=
  if Qeq_bool b 0 then inl ZeroDivisionError else inr (a / b)%Q.

Definition Qltb (a b : Q) : bool :=
  match (a ?= b)%Q with Lt => true | _ => false end.

(** ** The world and the monad of effectful code *)

(** The bar that [format_progress_bar] renders, kept as the values it is
    rendered from (lines 58-83). The function is taken to return: in
    binary64 it raises OverflowError when [int] is applied to an infinite
    speed or a count is too large to divide, which the rationals of the
    model never are ([formats] says when it returns). *)
Record progress_bar : Type := ProgressBar {
  bar_filename : string;
  bar_percentage : Q;
  bar_done : Z;
  bar_total_size : Z;
  bar_status : string;
  bar_speed : Q;
  bar_user_mention : string;
  bar_user_id : Z
}.

Definition format_progress_bar (filename : string) (percentage : Q)
    (done total_size : Z) (status : string) (speed : Q)
    (user_mention : string) (user_id : Z) : progress_bar :=
  ProgressBar filename percentage done total_size status speed user_mention user_id.

(** The text handed to [bot.edit_message_text]. *)
Inductive message : Type :=
| ProgressText (bar : progress_bar)     (* line 153 *)
| NetworkErrorText (e : exn)            (* line 163: f'Network Error: {e}' *)
| DownloadFailedText (e : exn).         (* line 168: f'Download failed: {e}' *)

(** What the routine does to the outside, in order. An [EditMessageText]
    records the call; [raised] is what the call answered ([None]: it
    returned). *)
Inductive event : Type :=
| EditMessageText (text : message) (chat_id message_id : Z) (raised : option exn)
| LogWarning_progress_failed (e : exn)  (* line 156 *)
| LogInfo_downloaded (title : string)   (* line 158 *)
| LogError_network (e : exn)            (* line 162 *)
| LogError_download (e : exn).          (* line 167 *)

Record World : Type := mkWorld {
  fs : gmap string (list Byte.byte);        (* files on disk, by path *)
  trace : list event
}.

Definition M (A : Type) : Type := World -> Exc A * World.

Definition ret {A} (a : A) : M A := fun w => (inr a, w).

Definition raise {A} (e : exn) : M A := fun w => (inl e, w).

Definition bind {A B} (m : M A) (k : A -> M B) : M B :=
  fun w => match m w with
           | (inl e, w') => (inl e, w')
           | (inr a, w') => k a w'
           end.

(** [try: m except Exception as e: h e] *)
Definition try_except {A} (m : M A) (h : exn -> M A) : M A :=
  fun w => match m w with
           | (inl e, w') => h e w'
           | (inr a, w') => (inr a, w')
           end.

Definition lift {A} (x : Exc A) : M A := fun w => (x, w).

Declare Scope py_scope.
Delimit Scope py_scope with py.
Notation "x <- m ;; k" := (bind m (fun x => k))
  (at level 100, m at next level, right associativity) : py_scope.
Notation "m ;; k" := (bind m (fun _ => k))
  (at level 100, right associativity) : py_scope.
Local Open Scope py_scope.

(** An observable action is recorded in the trace. For the records of the
    logger this stands for the line appended to bot.log: that file is not
    among the files of [fs]. *)
Definition emit (ev : event) : M unit :=
  fun w => (inr tt, mkWorld (fs w) (trace w ++ [ev])).

(** [bot.edit_message_text(text, chat_id, message_id)]: the call is made, and
    returns or raises as the chat API decides. *)
Definition edit_message_text (text : message) (chat_id message_id : Z)
    (answer : option exn) : M unit :=
  emit (EditMessageText text chat_id message_id answer) ;;
  match answer with
  | None => ret tt
  | Some e => raise e
  end.

(** [open(path, 'wb')]: the file is created, or truncated if it exists. *)
Definition open_wb (path : string) : M unit :=
  fun w => (inr tt, mkWorld (<[path := []]> (fs w)) (trace w)).

(** [video_file.write(data)] on the file opened at [path]. *)
Definition file_write (path : string) (data : list Byte.byte) : M unit :=
  fun w => (inr tt, mkWorld (alter (fun old => old ++ data) path (fs w)) (trace w)).

(** [with open(path, 'wb') as video_file: body]. Leaving the block, normally
    or by an exception, closes the file and leaves on disk what was
    written. *)
Definition with_open {A} (path : string) (body : M A) : M A :=
  open_wb path ;; body.

(** ** File name of the video (lines 111-112) *)

Definition path_unsafe (c : ascii) : bool :=
  List.existsb (Ascii.eqb c)
    ["<"; ">"; ":"; ascii_of_nat 34; "/"; "\"; "|"; "?"; "*"]%char.

(** [re.sub] at line 111: every character of the class (the nine listed in
    [path_unsafe], the fourth being the double quote) is removed. *)
Fixpoint sanitize (title : string) : string :=
  match title with
  | EmptyString => EmptyString
  | String c rest =>
      if path_unsafe c then sanitize rest else String c (sanitize rest)
  end.

Definition video_path_of (video_title : string) : string :=
  "Videos/" +:+ video_title +:+ ".mp4".

(** ** The environment: network, clock and chat API *)

Record api_response : Type := ApiResponse {
  api_status_code : Z;
  api_json : option json          (* [None]: [response.json()] raises ValueError *)
}.

Inductive stream_end : Type :=
| EndOfBody                       (* the body was read to its end *)
| ConnectionBroken.               (* reading raises a RequestException *)

(** One iteration of [iter_content], with what the clock and the chat API
    answer during it. *)
Record chunk : Type := Chunk {
  chunk_data : list Byte.byte;
  chunk_time : Q;                 (* [time()] at line 136 *)
  chunk_edit : option exn         (* answer of the call at line 153, if made *)
}.

(** The content-length header by what [int] makes of its text. *)
Inductive content_length_header : Type :=
| NoContentLength                 (* [headers.get] returns None *)
| ContentLength (parsed : option Z).  (* [None]: [int] raises ValueError *)

Record video_response : Type := VideoResponse {
  status_code : Z;
  content_length : content_length_header;
  body : list chunk;
  body_end : stream_end
}.

Record Env : Type := mkEnv {
  api_get : option api_response;      (* [None]: [requests.get] raises *)
  video_get : option video_response;  (* [None]: [requests.get] raises *)
  start_clock : Q;                    (* [time()] at line 129 *)
  handler_edit : option exn           (* answer of the call at line 163 or 168 *)
}.

Definition requests_get {A} (answer : option A) : M A :=
  match answer with
  | Some r => ret r
  | None => raise RequestException
  end.

(** [video_response.content]: the whole body, read into memory. *)
Definition content (r : video_response) : M (list Byte.byte) :=
  match body_end r with
  | EndOfBody => ret (concat (map chunk_data (body r)))
  | ConnectionBroken => raise RequestException
  end.

(** ** download_video *)

(** Line 104: [not data or 'response' not in data or len(data['response']) == 0] *)
Definition no_valid_links (data : json) : Exc bool :=
  if negb (truthy data) then inr true else
  let? has := py_in "response" data in
  if negb has then inr true else
  let? response := getitem data "response" in
  let? n := len response in
  inr (n =? 0).

(** [data['response'][0][key]] *)
Definition first_response_field (data : json) (key : string) : Exc json :=
  let? response := getitem data "response" in
  let? first := getitem0 response in
  getitem first key.

(** Line 111: [re.sub] accepts a string only. *)
Definition sanitized_title (title : json) : Exc string :=
  match title with
  | JStr s => inr (sanitize s)
  | _ => inl TypeError
  end.

(** Line 138: [downloaded_length / elapsed_time if elapsed_time > 0 else 0] *)
Definition speed_of (downloaded_length : Z) (elapsed_time : Q) : Exc Q :=
  if Qltb 0 elapsed_time
  then truediv (inject_Z downloaded_length) elapsed_time
  else inr 0%Q.

(** Line 137: [100 * downloaded_length / total_length], as the exact
    quotient; binary64 returns the nearest float, which is the quotient
    itself when that is a whole number of at most 2^53. *)
Definition percentage_of (downloaded_length total_length : Z) : Exc Q :=
  truediv (inject_Z (100 * downloaded_length)) (inject_Z total_length).

Record loop_vars : Type := LoopVars {
  downloaded_length : Z;
  last_percentage_update : Q
}.

(** [for chunk in video_response.iter_content(...)] *)
Fixpoint for_chunks (loop_body : chunk -> loop_vars -> M loop_vars)
    (chunks : list chunk) (fin : stream_end) (v : loop_vars) : M loop_vars :=
  match chunks with
  | [] =>
      match fin with
      | EndOfBody => ret v
      | ConnectionBroken => raise RequestException
      end
  | c :: rest =>
      v' <- loop_body c v ;;
      for_chunks loop_body rest fin v'
  end.

Section DownloadVideo.

Variables (url : string) (chat_id message_id : Z)
          (user_mention : string) (user_id : Z).
Variable env : Env.

(** Lines 133-156. *)
Definition loop_body (video_path video_title : string) (total_length : Z)
    (c : chunk) (v : loop_vars) : M loop_vars :=
  let downloaded := downloaded_length v + Z.of_nat (length (chunk_data c)) in
  file_write video_path (chunk_data c) ;;
  let elapsed_time := (chunk_time c - start_clock env)%Q in
  percentage <- lift (percentage_of downloaded total_length) ;;
  speed <- lift (speed_of downloaded elapsed_time) ;;
  if Qle_bool 7 (percentage - last_percentage_update v) then
    try_except
      (let progress :=
         format_progress_bar video_title percentage downloaded total_length
           "Downloading" speed user_mention user_id in
       edit_message_text (ProgressText progress) chat_id message_id (chunk_edit c) ;;
       ret (LoopVars downloaded percentage))
      (fun progress_error =>
         emit (LogWarning_progress_failed progress_error) ;;
         ret (LoopVars downloaded (last_percentage_update v)))
  else ret (LoopVars downloaded (last_percentage_update v)).

(** Lines 122-156: the value of [total_length] when the block is left. *)
Definition transfer (video_path video_title : string) (r : video_response) : M Z :=
  match content_length r with
  | NoContentLength =>
      whole <- content r ;;
      file_write video_path whole ;;
      whole' <- content r ;;
      ret (Z.of_nat (length whole'))
  | ContentLength parsed =>
      total_length <- lift (match parsed with
                            | Some n => inr n
                            | None => inl ValueError
                            end) ;;
      for_chunks (loop_body video_path video_title total_length)
        (body r) (body_end r) (LoopVars 0 0) ;;
      ret total_length
  end.

(** Lines 89-111: the resolution of the link, up to the sanitized title.
    Nothing here touches the disk, the chat or the log. *)
Definition resolve : Exc (json * string) :=
  let? response := match api_get env with
                   | Some r => inr r
                   | None => inl RequestException
                   end in
  let? _ := if negb (api_status_code response =? 200)
            then inl (Exception ("API request failed with status code "
                                 +:+ pretty (api_status_code response)))
            else inr tt in
  let? data := match api_json response with
               | Some d => inr d
               | None => inl (Exception "Invalid JSON response from API")
               end in
  let? invalid := no_valid_links data in
  let? _ := if invalid : bool
            then inl (Exception "No valid download links found")
            else inr tt in
  let? resolutions := first_response_field data "resolutions" in
  let? fast_download_link := getitem resolutions "Fast Download" in
  let? title := first_response_field data "title" in
  let? video_title := sanitized_title title in
  inr (fast_download_link, video_title).

(** Lines 115-156: the [with] block; its value is [total_length]. *)
Definition download_to (video_path video_title : string) : M Z :=
  with_open video_path
    (video_response <- requests_get (video_get env) ;;
     (if negb (status_code video_response =? 200)
      then raise (Exception ("Video download failed with status code "
                             +:+ pretty (status_code video_response)))
      else ret tt) ;;
     transfer video_path video_title video_response).

(** Lines 88-159: the [try] block. *)
Definition download_video_try : M (string * string * Z) :=
  resolved <- lift resolve ;;
  let video_title := snd resolved in
  let video_path := video_path_of video_title in
  total_length <- download_to video_path video_title ;;
  emit (LogInfo_downloaded video_title) ;;
  ret (video_path, video_title, total_length).

(** Lines 161-169: the two [except] clauses. *)
Definition download_video_except (e : exn) : M (string * string * Z) :=
  if is_RequestException e then
    emit (LogError_network e) ;;
    edit_message_text (NetworkErrorText e) chat_id message_id (handler_edit env) ;;
    raise e
  else
    emit (LogError_download e) ;;
    edit_message_text (DownloadFailedText e) chat_id message_id (handler_edit env) ;;
    raise e.

Definition download_video : M (string * string * Z) :=
  try_except download_video_try download_video_except.

End DownloadVideo.

(** ** Observations on a run *)

(** The events a run adds to the trace it starts from. *)
Definition new_events (w w' : World) : list event :=
  drop (length (trace w)) (trace w').

(** A progress notification: the percentage it shows and what the chat API
    answered ([None]: delivered). *)
Definition progress_call (ev : event) : option (Q * option exn) :=
  match ev with
  | EditMessageText (ProgressText bar) _ _ answer => Some (bar_percentage bar, answer)
  | _ => None
  end.

Definition progress_calls (evs : list event) : list (Q * option exn) :=
  omap progress_call evs.

(** The percentage of the last delivered progress notification, 0 if none. *)
Definition last_delivered (evs : list event) : Q :=
  fold_left (fun acc call => match snd call with None => fst call | Some _ => acc end)
            (progress_calls evs) 0%Q.


Definition chunk_len (c : chunk) : Z := Z.of_nat (length (chunk_data c)).

Definition body_bytes (chunks : list chunk) : list Byte.byte :=
  concat (map chunk_data chunks).

(** The number of bytes a sequence of chunks carries. *)
Fixpoint total_bytes (chunks : list chunk) : Z :=
  match chunks with
  | [] => 0
  | c :: rest => chunk_len c + total_bytes rest
  end.

(** [j] is a dict without the key [k]. *)
Definition lacks_key (j : json) (k : string) : bool :=
  match j with
  | JDict d => match dict_get d k with None => true | Some _ => false end
  | _ => false
  end.

(** The same environment with every progress notification delivered. *)
Definition delivered_chunk (c : chunk) : chunk :=
  Chunk (chunk_data c) (chunk_time c) None.

Definition all_delivered (env : Env) : Env :=
  mkEnv (api_get env)
        (option_map (fun r => VideoResponse (status_code r) (content_length r)
                                (map delivered_chunk (body r)) (body_end r))
                    (video_get env))
        (start_clock env) (handler_edit env).

(** ** One iteration of the loop, in closed form *)

Section Iteration.

Variables (chat_id message_id : Z) (user_mention : string) (user_id : Z).
Variable env : Env.
Variables (video_title : string) (total_length : Z).

Definition bytes_after (v : loop_vars) (c : chunk) : Z :=
  downloaded_length v + chunk_len c.

Definition percentage_at (v : loop_vars) (c : chunk) : Q :=
  (inject_Z (100 * bytes_after v c) / inject_Z total_length)%Q.

Definition speed_at (v : loop_vars) (c : chunk) : Q :=
  let elapsed_time := (chunk_time c - start_clock env)%Q in
  if Qltb 0 elapsed_time
  then (inject_Z (bytes_after v c) / elapsed_time)%Q
  else 0%Q.

Definition due (v : loop_vars) (c : chunk) : bool :=
  Qle_bool 7 (percentage_at v c - last_percentage_update v).

Definition bar_at (v : loop_vars) (c : chunk) : progress_bar :=
  format_progress_bar video_title (percentage_at v c) (bytes_after v c)
    total_length "Downloading" (speed_at v c) user_mention user_id.

Definition step_vars (v : loop_vars) (c : chunk) : loop_vars :=
  LoopVars (bytes_after v c)
    (if due v c
     then match chunk_edit c with
          | None => percentage_at v c
          | Some _ => last_percentage_update v
          end
     else last_percentage_update v).

Definition step_events (v : loop_vars) (c : chunk) : list event :=
  if due v c
  then match chunk_edit c with
       | None =>
           [EditMessageText (ProgressText (bar_at v c)) chat_id message_id None]
       | Some e =>
           [EditMessageText (ProgressText (bar_at v c)) chat_id message_id (Some e);
            LogWarning_progress_failed e]
       end
  else [].

Fixpoint loop_vars_after (v : loop_vars) (chunks : list chunk) : loop_vars :=
  match chunks with
  | [] => v
  | c :: rest => loop_vars_after (step_vars v c) rest
  end.

Fixpoint loop_events (v : loop_vars) (chunks : list chunk) : list event :=
  match chunks with
  | [] => []
  | c :: rest => step_events v c ++ loop_events (step_vars v c) rest
  end.


End Iteration.

(** ** The whole run, in closed form

    What a transfer answers, the bytes it leaves in the file and the events
    it adds, by cases on the environment. The lemmas [transfer_closed],
    [download_to_closed] and [run_resolve_failed], [run_failed],
    [run_succeeded] below prove that the code computes exactly this. *)

Section ClosedForm.

Variables (chat_id message_id : Z) (user_mention : string) (user_id : Z).
Variable env : Env.

Definition stream_result (fin : stream_end) (total_length : Z) : Exc Z :=
  match fin with
  | EndOfBody => inr total_length
  | ConnectionBroken => inl RequestException
  end.

Definition transfer_outcome (video_title : string) (r : video_response)
    : Exc Z * list Byte.byte * list event :=
  match content_length r with
  | NoContentLength =>
      match body_end r with
      | EndOfBody =>
          (inr (Z.of_nat (length (body_bytes (body r)))), body_bytes (body r), [])
      | ConnectionBroken => (inl RequestException, [], [])
      end
  | ContentLength None => (inl ValueError, [], [])
  | ContentLength (Some total) =>
      if total =? 0 then
        match body r with
        | [] => (stream_result (body_end r) total, [], [])
        | c :: _ => (inl ZeroDivisionError, chunk_data c, [])
        end
      else
        (stream_result (body_end r) total, body_bytes (body r),
         loop_events chat_id message_id user_mention user_id env video_title total
           (LoopVars 0 0) (body r))
  end.

Definition download_outcome (video_title : string)
    : Exc Z * list Byte.byte * list event :=
  match video_get env with
  | None => (inl RequestException, [], [])
  | Some r =>
      if negb (status_code r =? 200)
      then (inl (Exception ("Video download failed with status code "
                            +:+ pretty (status_code r))), [], [])
      else transfer_outcome video_title r
  end.

(** What the [except] clauses add to the trace for the exception [e]. *)
Definition error_report (e : exn) : list event :=
  if is_RequestException e
  then [LogError_network e;
        EditMessageText (NetworkErrorText e) chat_id message_id (handler_edit env)]
  else [LogError_download e;
        EditMessageText (DownloadFailedText e) chat_id message_id (handler_edit env)].

(** The exception that leaves [download_video] when [e] was caught: [e]
    itself, unless the call to the chat API in the clause raises. *)
Definition reraised (e : exn) : exn :=
  match handler_edit env with
  | None => e
  | Some e' => e'
  end.

End ClosedForm.

(** What holds of the loop variables at every point of a transfer. *)
Definition reachable (total : Z) (v : loop_vars) : Prop :=
  0 <= downloaded_length v /\ (total < 0 -> last_percentage_update v = 0%Q).

(** Every progress notification that failed is followed at once by the log
    record of its failure. *)
Definition failures_logged (evs : list event) : Prop :=
  forall bar cid mid e before after,
    evs = before ++ EditMessageText (ProgressText bar) cid mid (Some e) :: after ->
    exists after', after = LogWarning_progress_failed e :: after'.


(** ** Concrete transfers *)

Definition payload (title link : string) : json :=
  JDict [("response",
          JList [JDict [("title", JStr title);
                        ("resolutions", JDict [("Fast Download", JStr link)])]])].

Definition api_ok : option api_response :=
  Some (ApiResponse 200 (Some (payload "clip" "https://host/clip"))).

Definition empty_world : World := mkWorld ∅ [].

Definition bytes3 : list Byte.byte := [Byte.x01; Byte.x02; Byte.x03].

Definition one_byte (answer : option exn) : chunk := Chunk [Byte.x2a] 1 answer.

(** Three bytes arrive and three are declared. *)
Definition exact_body : video_response :=
  VideoResponse 200 (ContentLength (Some 3)) [Chunk bytes3 1 None] EndOfBody.

Definition exact_body_env : Env := mkEnv api_ok (Some exact_body) 0 None.

(** Three bytes arrive and ten are declared. *)
Definition short_body : video_response :=
  VideoResponse 200 (ContentLength (Some 10)) [Chunk bytes3 1 None] EndOfBody.

Definition short_body_env : Env := mkEnv api_ok (Some short_body) 0 None.

(** A hundred chunks of one byte, every notification delivered. *)
Definition hundred_chunks : video_response :=
  VideoResponse 200 (ContentLength (Some 100)) (repeat (one_byte None) 100) EndOfBody.

Definition hundred_chunks_env : Env := mkEnv api_ok (Some hundred_chunks) 0 None.

(** The same, but the chat API refuses the notification made at the seventh
    chunk. *)
Definition retry_body : video_response :=
  VideoResponse 200 (ContentLength (Some 100))
    (repeat (one_byte None) 6 ++ one_byte (Some ApiTelegramException)
       :: repeat (one_byte None) 93)
    EndOfBody.

Definition retry_env : Env := mkEnv api_ok (Some retry_body) 0 None.

(** No content-length header. *)
Definition no_length_body : video_response :=
  VideoResponse 200 NoContentLength [Chunk bytes3 1 None] EndOfBody.

Definition no_length_env : Env := mkEnv api_ok (Some no_length_body) 0 None.

(** The connection breaks after three of ten bytes. *)
Definition broken_body : video_response :=
  VideoResponse 200 (ContentLength (Some 10)) [Chunk bytes3 1 None] ConnectionBroken.

Definition broken_env : Env := mkEnv api_ok (Some broken_body) 0 None.

(** The resolutions carry no Fast Download entry. *)
Definition first_without_link : json :=
  JDict [("title", JStr "clip");
         ("resolutions", JDict [("HD Video", JStr "https://host/hd")])].

Definition payload_without_link : json :=
  JDict [("response", JList [first_without_link])].

Definition missing_link_env : Env :=
  mkEnv (Some (ApiResponse 200 (Some payload_without_link))) (Some exact_body) 0 None.


(** ** Further observations *)

(** The percentages of the progress notifications that were delivered. *)
Definition delivered_percentages (evs : list event) : list Q :=
  map fst
    (List.filter (fun call => match snd call with None => true | Some _ => false end)
       (progress_calls evs)).

(** Two successive delivered notifications are at least 7 points apart. *)
Definition seven_apart (p q : Q) : Prop := (p + 7 <= q)%Q.

(** A string without any of the characters [sanitize] removes. *)
Fixpoint path_safe (s : string) : bool :=
  match s with
  | EmptyString => true
  | String c rest => negb (path_unsafe c) && path_safe rest
  end.

(** An error text put in the chat by the [except] clauses. *)
Definition is_error_edit (ev : event) : bool :=
  match ev with
  | EditMessageText (NetworkErrorText _) _ _ _ => true
  | EditMessageText (DownloadFailedText _) _ _ _ => true
  | _ => false
  end.

(** The message a call of [bot.edit_message_text] edits. *)
Definition edited_message (ev : event) : option (Z * Z) :=
  match ev with
  | EditMessageText _ cid mid _ => Some (cid, mid)
  | _ => None
  end.

(** ** The text of the progress bar (lines 58-83)

    [format_progress_bar] above keeps the values; here is what lines 60-74
    compute from them. The two-decimal rendering of a number ([:.2f]) is not
    modelled: a size is kept as its unit and the number that is rendered. *)

(** [int(x)] on a number: truncation toward zero. *)
Definition py_int (x : Q) : Z := Z.quot (Qnum x) (Zpos (Qden x)).

Inductive bar_symbol : Type :=
| Filled                          (* the black circle of line 62 *)
| Hollow.                         (* the circled dot of line 62 *)

(** [s * n] for a string [s] of one symbol: empty when [n] is not positive. *)
Definition times (sym : bar_symbol) (n : Z) : list bar_symbol :=
  repeat sym (Z.to_nat n).

Definition bar_length : Z := 10.

(** Line 61. *)
Definition filled_length (percentage : Q) : Z :=
  py_int (inject_Z bar_length * percentage / 100).

(** Line 62. *)
Definition bar (percentage : Q) : list bar_symbol :=
  times Filled (filled_length percentage)
  ++ times Hollow (bar_length - filled_length percentage).

Inductive size_text : Type :=
| SizeB (size : Z)                (* the integer, then B *)
| SizeKB (value : Q)              (* the number rendered, then KB *)
| SizeMB (value : Q)
| SizeGB (value : Q).

(** Lines 64-74. *)
Definition format_size (size : Q) : size_text :=
  let size := py_int size in
  if size <? 1024 then SizeB size
  else if size <? 1024 ^ 2 then SizeKB (inject_Z size / 1024)
  else if size <? 1024 ^ 3 then SizeMB (inject_Z size / inject_Z (1024 ^ 2))
  else SizeGB (inject_Z size / inject_Z (1024 ^ 3)).

(** The number of bytes a rendered size stands for. *)
Definition size_in_bytes (t : size_text) : Q :=
  match t with
  | SizeB n => inject_Z n
  | SizeKB v => v * 1024
  | SizeMB v => v * inject_Z (1024 ^ 2)
  | SizeGB v => v * inject_Z (1024 ^ 3)
  end.

(** The number a rendered size shows. *)
Definition size_number (t : size_text) : Q :=
  match t with
  | SizeB n => inject_Z n
  | SizeKB v | SizeMB v | SizeGB v => v
  end.

(** ** The pattern of line 242

    A pattern is a sequence of items, each one character, an optional
    character or a starred character; [match_here] is [re.match]: the
    pattern matches at the start of the text, the rest of the text being
    free. *)

Inductive atom : Type :=
| Literal (c : ascii)
| AnyChar.                        (* the dot: any character but a newline *)

Inductive item : Type :=
| One (a : atom)
| Optional (a : atom)             (* a? *)
| Star (a : atom).                (* a* *)

Definition newline : ascii := ascii_of_nat 10.

Definition atom_matches (a : atom) (c : ascii) : bool :=
  match a with
  | Literal c' => Ascii.eqb c' c
  | AnyChar => negb (Ascii.eqb c newline)
  end.

Fixpoint match_here (pattern : list item) : string -> bool :=
  match pattern with
  | [] => fun _ => true
  | One a :: rest =>
      fun s =>
        match s with
        | String c s' => atom_matches a c && match_here rest s'
        | EmptyString => false
        end
  | Optional a :: rest =>
      fun s =>
        match s with
        | String c s' => atom_matches a c && match_here rest s'
        | EmptyString => false
        end
        || match_here rest s
  | Star a :: rest =>
      fix star (s : string) : bool :=
        match_here rest s
        || match s with
           | String c s' => atom_matches a c && star s'
           | EmptyString => false
           end
  end.

Definition literal (s : string) : list item :=
  map (fun c => One (Literal c)) (list_ascii_of_string s).

(** [r'http[s]?://.*tera'] *)
Definition tera_link : list item :=
  literal "http" ++ Optional (Literal "s") :: literal "://"
  ++ Star AnyChar :: literal "tera".

(** [re.match(r'http[s]?://.*tera', video_url)] *)
Definition is_tera_link (video_url : string) : bool :=
  match_here tera_link video_url.

(** A text without a newline. *)
Fixpoint one_line (s : string) : bool :=
  match s with
  | EmptyString => true
  | String c rest => negb (Ascii.eqb c newline) && one_line rest
  end.

(** ** The message handlers (lines 49-56, 172-206 and 210-276)

    The handlers run in a larger world: the disk, the two collections of
    the database, and what happened, in order. The users collection is kept
    as a map from the user id to the document (the code inserts a document
    only when it finds none for the id); the banned collection as the set of
    banned ids. Operations on the database are taken to succeed, and a
    message carries a text (the handler is registered for text messages). *)

Record user : Type := User {
  id_of : Z;
  first_name_of : string
}.

Record tg_message : Type := Message {
  message_id_of : Z;
  chat_of : Z;
  from_user : user;
  text_of : string
}.

(** What leaves a handler as an exception. *)
Inductive bot_exn : Type :=
| Py (e : exn)
| FileNotFoundError.              (* [open(path, 'rb')] and [os.remove] *)

Inductive bot_text : Type :=
| BannedText                      (* line 223 *)
| JoinText                        (* line 230 *)
| DownloadingText                 (* line 243 *)
| SendingText                     (* line 246 *)
| FailedText (e : bot_exn)        (* line 274: f'Download failed: {e}' *)
| InvalidLinkText.                (* line 276 *)

(** The calls of the chat API the handlers make. *)
Inductive bot_call : Type :=
| GetChatMember (channel : string) (user_id : Z)
| SendChatAction (chat : Z)
| SendPhoto (chat : Z) (to : user)
| SendMessage (chat : Z) (text : bot_text)
| EditMessage (chat message_id : Z) (text : bot_text)
| SendVideo (dump : option string) (path title : string) (size : Z)
| CopyMessage (chat : Z) (dump : option string) (message_id : Z)
| SendSticker (chat : Z)
| DeleteMessage (chat message_id : Z).

Inductive bot_event : Type :=
| Called (c : bot_call) (raised : option exn)
| Downloading (ev : event)        (* an event of [download_video] *)
| LogWarning_membership (user_id : Z) (e : bot_exn)    (* line 55 *)
| LogError_video (e : bot_exn).                        (* line 273 *)

Record user_doc : Type := UserDoc {
  doc_first_name : option string;
  doc_downloads : Z
}.

Record BotWorld : Type := mkBot {
  disk : gmap string (list Byte.byte);
  users : gmap Z user_doc;
  banned : gset Z;
  happened : list bot_event
}.

(** What the handlers meet. *)
Record BotEnv : Type := mkBotEnv {
  api : bot_call -> option exn;   (* the answer of each call; [None]: it returns *)
  member_status : string;         (* [.status] of the answer of line 52 *)
  progress_message_id : Z;        (* the id of the message sent at line 243 *)
  sent_video_id : Z;              (* the id of the message sent at line 250 *)
  dump_chat_id : option string;   (* [os.getenv('DUMP_CHAT_ID')] *)
  download_env : Env              (* what [download_video] meets *)
}.

Definition B (A : Type) : Type := BotWorld -> (bot_exn + A) * BotWorld.

Definition retB {A} (a : A) : B A := fun w => (inr a, w).

Definition raiseB {A} (e : bot_exn) : B A := fun w => (inl e, w).

Definition bindB {A C} (m : B A) (k : A -> B C) : B C :=
  fun w => match m w with
           | (inl e, w') => (inl e, w')
           | (inr a, w') => k a w'
           end.

Definition try_exceptB {A} (m : B A) (h : bot_exn -> B A) : B A :=
  fun w => match m w with
           | (inl e, w') => h e w'
           | (inr a, w') => (inr a, w')
           end.

Declare Scope bot_scope.
Delimit Scope bot_scope with bot.
Notation "x <-- m ;;; k" := (bindB m (fun x => k))
  (at level 100, m at next level, right associativity) : bot_scope.
Notation "m ;;; k" := (bindB m (fun _ => k))
  (at level 100, right associativity) : bot_scope.
Local Open Scope bot_scope.

(** An event of the handler is recorded; as in [emit], a log record stands
    for the line appended to bot.log, which is not among the files of
    [disk]. *)
Definition note (ev : bot_event) : B unit :=
  fun w => (inr tt, mkBot (disk w) (users w) (banned w) (happened w ++ [ev])).

(** A call of the chat API: it is made, and returns or raises. *)
Definition call (benv : BotEnv) (c : bot_call) : B unit :=
  note (Called c (api benv c)) ;;;
  match api benv c with
  | None => retB tt
  | Some e => raiseB (Py e)
  end.

(** [open(path, 'rb')] *)
Definition open_rb (path : string) : B unit :=
  fun w => match disk w !! path with
           | Some _ => (inr tt, w)
           | None => (inl FileNotFoundError, w)
           end.

(** [os.remove(path)] *)
Definition os_remove (path : string) : B unit :=
  fun w => match disk w !! path with
           | Some _ =>
               (inr tt, mkBot (delete path (disk w)) (users w) (banned w) (happened w))
           | None => (inl FileNotFoundError, w)
           end.

(** [users_collection.find_one({'user_id': id})] *)
Definition find_user (id : Z) : B (option user_doc) :=
  fun w => (inr (users w !! id), w).

(** [users_collection.insert_one(...)] of line 181. *)
Definition insert_user (u : user) : B unit :=
  fun w => (inr tt,
            mkBot (disk w)
                  (<[id_of u := UserDoc (Some (first_name_of u)) 0]> (users w))
                  (banned w) (happened w)).

(** [users_collection.update_one(..., {'$inc': {'downloads': 1}}, upsert=True)] *)
Definition count_download (id : Z) : B unit :=
  fun w => (inr tt,
            mkBot (disk w)
                  (match users w !! id with
                   | Some d =>
                       <[id := UserDoc (doc_first_name d) (doc_downloads d + 1)]>
                         (users w)
                   | None => <[id := UserDoc None 1]> (users w)
                   end)
                  (banned w) (happened w)).

(** [banned_users_collection.find_one({'user_id': id})] as a truth value. *)
Definition is_banned (id : Z) : B bool :=
  fun w => (inr (bool_decide (id ∈ banned w)), w).

(** Lines 49-56. *)
Definition is_member (benv : BotEnv) (user_id : Z) : B bool :=
  try_exceptB
    (call benv (GetChatMember "-1001911851456" user_id) ;;;
     retB (List.existsb (String.eqb (member_status benv))
             ["member"; "administrator"; "creator"]))
    (fun e => note (LogWarning_membership user_id e) ;;; retB false).

(** Lines 172-206. *)
Definition send_welcome (benv : BotEnv) (message : tg_message) : B unit :=
  let user := from_user message in
  call benv (SendChatAction (chat_of message)) ;;;
  found <-- find_user (id_of user) ;;;
  (match found with
   | Some _ => retB tt
   | None => insert_user user
   end) ;;;
  call benv (SendPhoto (chat_of message) user).

(** Line 239. *)
Definition mention (u : user) : string :=
  "<a href='tg://user?id=" +:+ pretty (id_of u) +:+ "'>" +:+ first_name_of u +:+ "</a>".

(** Line 245: [download_video] runs on the disk of the handler, and what it
    does is added to what happened. *)
Definition run_download_video (benv : BotEnv) (chat_id message_id : Z)
    (user_mention : string) (user_id : Z) : B (string * string * Z) :=
  fun w =>
    let out := download_video chat_id message_id user_mention user_id
                 (download_env benv) (mkWorld (disk w) []) in
    (match fst out with
     | inl e => inl (Py e)
     | inr result => inr result
     end,
     mkBot (fs (snd out)) (users w) (banned w)
           (happened w ++ map Downloading (trace (snd out)))).

(** Lines 245-270: the [try] block. *)
Definition handle_message_try (benv : BotEnv) (message : tg_message)
    (progress_id : Z) : B unit :=
  let user := from_user message in
  let chat_id := chat_of message in
  result <-- run_download_video benv chat_id progress_id (mention user) (id_of user) ;;;
  let '(video_path, video_title, video_size) := result in
  call benv (EditMessage chat_id progress_id SendingText) ;;;
  open_rb video_path ;;;
  call benv (SendVideo (dump_chat_id benv) video_path video_title video_size) ;;;
  call benv (CopyMessage chat_id (dump_chat_id benv) (sent_video_id benv)) ;;;
  call benv (SendSticker chat_id) ;;;
  count_download (id_of user) ;;;
  call benv (DeleteMessage chat_id progress_id) ;;;
  call benv (DeleteMessage chat_id (message_id_of message)) ;;;
  os_remove video_path.

(** Lines 210-276. *)
Definition handle_message (benv : BotEnv) (message : tg_message) : B unit :=
  let user := from_user message in
  let chat_id := chat_of message in
  if String.prefix "/" (text_of message) then retB tt else
  call benv (SendChatAction chat_id) ;;;
  is_banned_user <-- is_banned (id_of user) ;;;
  if is_banned_user : bool then call benv (SendMessage chat_id BannedText) else
  member <-- is_member benv (id_of user) ;;;
  if negb member then call benv (SendMessage chat_id JoinText) else
  if is_tera_link (text_of message) then
    call benv (SendMessage chat_id DownloadingText) ;;;
    let progress_id := progress_message_id benv in
    try_exceptB
      (handle_message_try benv message progress_id)
      (fun e =>
         note (LogError_video e) ;;;
         call benv (EditMessage chat_id progress_id (FailedText e)))
  else call benv (SendMessage chat_id InvalidLinkText).

(** The events of [download_video] among what happened. *)
Definition is_download_event (ev : bot_event) : bool :=
  match ev with Downloading _ => true | _ => false end.

(** The events a handler adds. *)
Definition new_happened (w w' : BotWorld) : list bot_event :=
  drop (length (happened w)) (happened w').

(** The calls of the chat API that the [try] block makes after the
    download (lines 246-269). *)
Definition after_download_calls (benv : BotEnv) (chat_id progress_id message_id : Z)
    (path title : string) (size : Z) : list bot_call :=
  [EditMessage chat_id progress_id SendingText;
   SendVideo (dump_chat_id benv) path title size;
   CopyMessage chat_id (dump_chat_id benv) (sent_video_id benv);
   SendSticker chat_id;
   DeleteMessage chat_id progress_id;
   DeleteMessage chat_id message_id].

(** The users collection after one more download of [id] is counted. *)
Definition counted (id : Z) (docs : gmap Z user_doc) : gmap Z user_doc :=
  match docs !! id with
  | Some d => <[id := UserDoc (doc_first_name d) (doc_downloads d + 1)]> docs
  | None => <[id := UserDoc None 1]> docs
  end.

(** ** Concrete messages and handlers' environments *)



(** The video host answers 404. *)
Definition not_found_body : video_response :=
  VideoResponse 404 NoContentLength [] EndOfBody.

Definition not_found_env : Env := mkEnv api_ok (Some not_found_body) 0 None.

(** The notification of the transfer [exact_body_env] run for the message
    1 of chat 2. *)
Definition full_bar : progress_bar :=
  ProgressBar "clip" (inject_Z (100 * 3) / inject_Z 3) 3 3 "Downloading"
    (inject_Z 3 / (1 - 0)) "u" 3.

Definition ann : user := User 42 "Ann".

Definition tera_message : tg_message := Message 11 5 ann "https://terabox.com/s/1".

Definition start_message : tg_message := Message 12 5 ann "/start".

Definition empty_bot_world : BotWorld := mkBot ∅ ∅ ∅ [].

(** A chat API that answers every call. *)
Definition willing_api (c : bot_call) : option exn := None.

(** A chat API that refuses the video. *)
Definition video_refusing_api (c : bot_call) : option exn :=
  match c with
  | SendVideo _ _ _ _ => Some ApiTelegramException
  | _ => None
  end.

(** A chat API that refuses the typing action. *)
Definition silent_api (c : bot_call) : option exn :=
  match c with
  | SendChatAction _ => Some ApiTelegramException
  | _ => None
  end.

Definition willing_env : BotEnv :=
  mkBotEnv willing_api "member" 77 88 (Some "-100200") exact_body_env.

Definition broken_download_env : BotEnv :=
  mkBotEnv willing_api "member" 77 88 (Some "-100200") broken_env.

Definition video_refusing_env : BotEnv :=
  mkBotEnv video_refusing_api "member" 77 88 (Some "-100200") exact_body_env.

Definition silent_env : BotEnv :=
  mkBotEnv silent_api "member" 77 88 (Some "-100200") exact_body_env.

(** ** Where the exact model and binary64 agree *)



(** ** Failures whose report is refused, and a negative content-length *)

(** Fast Download is missing and the chat API refuses the error message of
    line 168. *)
Definition unreported_missing_link_env : Env :=
  mkEnv (Some (ApiResponse 200 (Some payload_without_link))) (Some exact_body) 0
    (Some ApiTelegramException).

(** The connection breaks after three of ten bytes and the chat API refuses
    the error message of line 163. *)
Definition unreported_broken_env : Env :=
  mkEnv api_ok (Some broken_body) 0 (Some ApiTelegramException).

(** The server declares a content-length of -5, which [int] of line 127
    accepts, and sends two chunks of three bytes. *)
Definition negative_length_body : video_response :=
  VideoResponse 200 (ContentLength (Some (-5)))
    [Chunk bytes3 1 None; Chunk bytes3 2 None] EndOfBody.

Definition negative_length_env : Env :=
  mkEnv api_ok (Some negative_length_body) 0 None.


(** * Properties *)

(** ** Arithmetic of the loop *)

Lemma Qeq_bool_inject_Z_0 (z : Z) : Qeq_bool (inject_Z z) 0 = (z =? 0).
Proof.
  unfold Qeq_bool, inject_Z. simpl. rewrite Z.mul_1_r. reflexivity.
Qed.

Lemma percentage_of_nonzero (d total : Z) :
  total <> 0 ->
  percentage_of d total = inr (inject_Z (100 * d) / inject_Z total)%Q.
Proof.
  intros Hne. unfold percentage_of, truediv.
  rewrite Qeq_bool_inject_Z_0.
  destruct (Z.eqb_spec total 0); [contradiction | reflexivity].
Qed.

Lemma percentage_of_zero (d : Z) : percentage_of d 0 = inl ZeroDivisionError.
Proof. reflexivity. Qed.

Lemma Qltb_lt (a b : Q) : Qltb a b = true <-> (a < b)%Q.
Proof.
  unfold Qltb. rewrite Qlt_alt.
  destruct (a ?= b)%Q; split; congruence.
Qed.

Lemma Qltb_0_not_zero (e : Q) : Qltb 0 e = true -> Qeq_bool e 0 = false.
Proof.
  intros H. apply Qltb_lt in H.
  destruct (Qeq_bool e 0) eqn:E; [| reflexivity].
  apply Qeq_bool_iff in E. rewrite E in H. exfalso. exact (Qlt_irrefl 0 H).
Qed.

Lemma speed_of_closed (d : Z) (e : Q) :
  speed_of d e = inr (if Qltb 0 e then (inject_Z d / e)%Q else 0%Q).
Proof.
  unfold speed_of, truediv.
  destruct (Qltb 0 e) eqn:E; [| reflexivity].
  rewrite (Qltb_0_not_zero _ E). reflexivity.
Qed.

Section Properties.

Variables (chat_id message_id : Z) (user_mention : string) (user_id : Z).

Local Notation run := (download_video chat_id message_id user_mention user_id).
Local Notation iteration env path title total :=
  (loop_body chat_id message_id user_mention user_id env path title total).
Local Notation events_of_step env title total :=
  (step_events chat_id message_id user_mention user_id env title total).
Local Notation events_of_loop env title total :=
  (loop_events chat_id message_id user_mention user_id env title total).
Local Notation append_to path data w :=
  (alter (fun old : list Byte.byte => old ++ data) path (fs w)).

(** *** The loop body and the loop agree with their closed forms *)

Lemma loop_body_nonzero env path title total c v w :
  total <> 0 ->
  iteration env path title total c v w =
  (inr (step_vars total v c),
   mkWorld (append_to path (chunk_data c) w)
           (trace w ++ events_of_step env title total v c)).
Proof.
  intros Hne.
  unfold loop_body, bind, lift, file_write. cbn [fs trace].
  fold (chunk_len c). fold (bytes_after v c).
  rewrite (percentage_of_nonzero _ _ Hne), speed_of_closed.
  fold (percentage_at total v c). fold (speed_at env v c).
  unfold step_vars, step_events, due.
  destruct (Qle_bool 7 _).
  - unfold try_except, edit_message_text, bind, emit, ret, raise.
    cbn [fs trace].
    fold (bar_at user_mention user_id env title total v c).
    destruct (chunk_edit c) as [e|]; cbn [fs trace].
    + rewrite <- app_assoc. reflexivity.
    + reflexivity.
  - unfold ret. rewrite app_nil_r. reflexivity.
Qed.

Lemma loop_body_zero env path title c v w :
  iteration env path title 0 c v w =
  (inl ZeroDivisionError, mkWorld (append_to path (chunk_data c) w) (trace w)).
Proof. reflexivity. Qed.

Lemma append_to_nil path (m : gmap string (list Byte.byte)) :
  alter (fun old => old ++ []) path m = m.
Proof. apply alter_id. intros x _. apply app_nil_r. Qed.

Lemma append_to_twice path a b (m : gmap string (list Byte.byte)) :
  alter (fun old => old ++ b) path (alter (fun old => old ++ a) path m)
  = alter (fun old => old ++ (a ++ b)) path m.
Proof.
  rewrite alter_alter_eq. apply alter_ext.
  intros x _. simpl. rewrite app_assoc. reflexivity.
Qed.

Lemma for_chunks_nonzero env path title total chunks fin v w :
  total <> 0 ->
  for_chunks (iteration env path title total) chunks fin v w =
  (match fin with
   | EndOfBody => inr (loop_vars_after total v chunks)
   | ConnectionBroken => inl RequestException
   end,
   mkWorld (append_to path (body_bytes chunks) w)
           (trace w ++ events_of_loop env title total v chunks)).
Proof.
  intros Hne. revert v w.
  induction chunks as [|c rest IH]; intros v w.
  - cbn [for_chunks loop_vars_after loop_events body_bytes map concat].
    rewrite append_to_nil, app_nil_r.
    destruct fin, w; reflexivity.
  - cbn [for_chunks loop_vars_after loop_events]. unfold bind.
    rewrite (loop_body_nonzero _ _ _ _ _ _ _ Hne), IH. cbn [fs trace].
    unfold body_bytes. cbn [map concat].
    rewrite append_to_twice, <- app_assoc. reflexivity.
Qed.

Lemma for_chunks_zero env path title c rest fin v w :
  for_chunks (iteration env path title 0) (c :: rest) fin v w =
  (inl ZeroDivisionError, mkWorld (append_to path (chunk_data c) w) (trace w)).
Proof. reflexivity. Qed.

Local Notation transfer_of env title r :=
  (transfer_outcome chat_id message_id user_mention user_id env title r).
Local Notation download_of env title :=
  (download_outcome chat_id message_id user_mention user_id env title).
Local Notation report env e := (error_report chat_id message_id env e).

(** *** The transfer and the whole run agree with their closed forms *)

Lemma world_eta (w : World) : mkWorld (fs w) (trace w) = w.
Proof. destruct w; reflexivity. Qed.

Lemma transfer_closed env path title r w :
  transfer chat_id message_id user_mention user_id env path title r w =
  (fst (fst (transfer_of env title r)),
   mkWorld (append_to path (snd (fst (transfer_of env title r))) w)
           (trace w ++ snd (transfer_of env title r))).
Proof.
  unfold transfer, transfer_outcome.
  destruct (content_length r) as [|[total|]].
  - unfold content, bind, file_write, ret, raise.
    destruct (body_end r); cbn [fst snd fs trace].
    + rewrite app_nil_r. reflexivity.
    + rewrite append_to_nil, app_nil_r, world_eta. reflexivity.
  - unfold bind, lift.
    destruct (Z.eqb_spec total 0) as [->|Hne].
    + destruct (body r) as [|c rest]; cbn [fst snd].
      * cbn [for_chunks]. rewrite append_to_nil, app_nil_r, world_eta.
        destruct (body_end r); reflexivity.
      * rewrite for_chunks_zero, app_nil_r. reflexivity.
    + rewrite (for_chunks_nonzero _ _ _ _ _ _ _ _ Hne). cbn [fst snd].
      destruct (body_end r); reflexivity.
  - unfold bind, lift. cbn [fst snd].
    rewrite append_to_nil, app_nil_r, world_eta. reflexivity.
Qed.

Lemma download_to_closed env path title w :
  download_to chat_id message_id user_mention user_id env path title w =
  (fst (fst (download_of env title)),
   mkWorld (<[path := snd (fst (download_of env title))]> (fs w))
           (trace w ++ snd (download_of env title))).
Proof.
  unfold download_to, with_open, open_wb, bind, requests_get, download_outcome.
  destruct (video_get env) as [r|]; unfold ret, raise; cbn [fst snd fs trace].
  - destruct (negb (status_code r =? 200)); cbn [fst snd fs trace].
    + rewrite app_nil_r. reflexivity.
    + rewrite transfer_closed. cbn [fs trace].
      rewrite alter_insert_eq. reflexivity.
  - rewrite app_nil_r. reflexivity.
Qed.

Lemma except_closed env e w :
  download_video_except chat_id message_id env e w =
  (inl (reraised env e), mkWorld (fs w) (trace w ++ report env e)).
Proof.
  unfold download_video_except, error_report, reraised, edit_message_text,
    bind, emit, ret, raise.
  destruct (is_RequestException e), (handler_edit env);
    cbn [fs trace]; rewrite <- app_assoc; reflexivity.
Qed.

Lemma run_resolve_failed env w e :
  resolve env = inl e ->
  run env w = (inl (reraised env e), mkWorld (fs w) (trace w ++ report env e)).
Proof.
  intros H. unfold download_video, try_except, download_video_try, bind, lift.
  rewrite H. apply except_closed.
Qed.

Lemma run_failed env w link title e :
  resolve env = inr (link, title) ->
  fst (fst (download_of env title)) = inl e ->
  run env w =
  (inl (reraised env e),
   mkWorld (<[video_path_of title := snd (fst (download_of env title))]> (fs w))
           (trace w ++ snd (download_of env title) ++ report env e)).
Proof.
  intros H He. unfold download_video, try_except, download_video_try, bind, lift.
  rewrite H. cbn [snd]. rewrite download_to_closed, He, except_closed.
  cbn [fs trace]. rewrite <- app_assoc. reflexivity.
Qed.

Lemma run_succeeded env w link title total :
  resolve env = inr (link, title) ->
  fst (fst (download_of env title)) = inr total ->
  run env w =
  (inr (video_path_of title, title, total),
   mkWorld (<[video_path_of title := snd (fst (download_of env title))]> (fs w))
           (trace w ++ snd (download_of env title) ++ [LogInfo_downloaded title])).
Proof.
  intros H He. unfold download_video, try_except, download_video_try, bind, lift.
  rewrite H. cbn [snd]. rewrite download_to_closed, He.
  unfold emit, ret. cbn [fs trace]. rewrite <- app_assoc. reflexivity.
Qed.

Lemma new_events_app w evs (m : gmap string (list Byte.byte)) :
  new_events w (mkWorld m (trace w ++ evs)) = evs.
Proof. unfold new_events. cbn [trace]. apply drop_app_length. Qed.

(** *** How a run can end *)

Lemma run_cases env w :
  (exists e, resolve env = inl e /\
     run env w = (inl (reraised env e),
                  mkWorld (fs w) (trace w ++ report env e))) \/
  (exists link title e, resolve env = inr (link, title) /\
     fst (fst (download_of env title)) = inl e /\
     run env w =
     (inl (reraised env e),
      mkWorld (<[video_path_of title := snd (fst (download_of env title))]> (fs w))
              (trace w ++ snd (download_of env title) ++ report env e))) \/
  (exists link title total, resolve env = inr (link, title) /\
     fst (fst (download_of env title)) = inr total /\
     run env w =
     (inr (video_path_of title, title, total),
      mkWorld (<[video_path_of title := snd (fst (download_of env title))]> (fs w))
              (trace w ++ snd (download_of env title) ++ [LogInfo_downloaded title]))).
Proof.
  destruct (resolve env) as [e|[link title]] eqn:Hres.
  - left. exists e. split; [reflexivity|]. by apply run_resolve_failed.
  - right. destruct (fst (fst (download_of env title))) as [e|total] eqn:Hd.
    + left. exists link, title, e. repeat split; try done.
      by apply (run_failed _ _ link).
    + right. exists link, title, total. repeat split; try done.
      by apply (run_succeeded _ _ link).
Qed.

Lemma run_inr_inv env w path title total :
  fst (run env w) = inr (path, title, total) ->
  exists link,
    resolve env = inr (link, title) /\
    path = video_path_of title /\
    fst (fst (download_of env title)) = inr total /\
    run env w =
    (inr (path, title, total),
     mkWorld (<[path := snd (fst (download_of env title))]> (fs w))
             (trace w ++ snd (download_of env title) ++ [LogInfo_downloaded title])).
Proof.
  intros H.
  destruct (run_cases env w)
    as [(e & _ & Hr)|[(link & t & e & _ & _ & Hr)|(link & t & n & Hres & Hd & Hr)]];
    rewrite Hr in H; cbn [fst] in H; try discriminate.
  injection H as <- <- <-. exists link. by rewrite Hr.
Qed.

Lemma total_bytes_length chunks :
  Z.of_nat (length (body_bytes chunks)) = total_bytes chunks.
Proof.
  unfold body_bytes.
  induction chunks as [|c rest IH]; cbn [map concat total_bytes]; [reflexivity|].
  rewrite length_app, Nat2Z.inj_add, IH. reflexivity.
Qed.

(** *** The claims on results and files *)

(** C9. The throughput of line 138 never faults: it is always a value;
    it is 0 when the elapsed time is 0, and the bytes done divided by the
    elapsed time when the elapsed time is positive. (A negative elapsed
    time, which the data model excludes, also gives 0.) *)
Theorem throughput_guarded (downloaded : Z) (elapsed : Q) :
  (exists speed, speed_of downloaded elapsed = inr speed) /\
  ((elapsed == 0)%Q -> speed_of downloaded elapsed = inr 0%Q) /\
  ((0 < elapsed)%Q ->
   speed_of downloaded elapsed = inr (inject_Z downloaded / elapsed)%Q) /\
  ((elapsed < 0)%Q -> speed_of downloaded elapsed = inr 0%Q).
Proof.
  rewrite speed_of_closed.
  destruct (Qltb 0 elapsed) eqn:E.
  - apply Qltb_lt in E. repeat split; eauto.
    + intros H0. rewrite H0 in E. destruct (Qlt_irrefl _ E).
    + intros Hneg. destruct (Qlt_irrefl _ (Qlt_trans _ _ _ E Hneg)).
  - repeat split; eauto.
    intros Hpos. apply Qltb_lt in Hpos. congruence.
Qed.

(** C4, as amended. A payload whose [response[0]] lacks the key title, or
    whose [response[0].resolutions] lacks the key Fast Download, makes the
    resolution (lines 89-111) raise; the operation then fails with that
    exception, or with the chat API's own when the error message of line
    168 is refused, and every file other than the logger's bot.log is what
    it was: no destination file is created. With status 200 and Fast
    Download missing the resolution's exception is the KeyError of that
    key. *)
Theorem missing_field_fails env w response data items first :
  api_get env = Some response ->
  api_json response = Some data ->
  getitem data "response" = inr items ->
  getitem0 items = inr first ->
  (lacks_key first "title" = true \/
   exists resolutions, getitem first "resolutions" = inr resolutions /\
                       lacks_key resolutions "Fast Download" = true) ->
  exists e,
    resolve env = inl e /\
    fst (run env w) = inl (reraised env e) /\
    (forall path, path <> "bot.log" ->
                  fs (snd (run env w)) !! path = fs w !! path) /\
    (api_status_code response = 200 ->
     (exists resolutions, getitem first "resolutions" = inr resolutions /\
                          lacks_key resolutions "Fast Download" = true) ->
     e = KeyError "Fast Download").
Proof.
  intros Hapi Hjson Hitems Hfirst Hlack.
  assert (Hres : exists e, resolve env = inl e /\
            (api_status_code response = 200 ->
             (exists resolutions, getitem first "resolutions" = inr resolutions /\
                                  lacks_key resolutions "Fast Download" = true) ->
             e = KeyError "Fast Download")).
  { unfold resolve, first_response_field. rewrite Hapi. cbn [bindE].
    destruct (Z.eqb_spec (api_status_code response) 200) as [Hs|Hs]; cbn [negb bindE].
    2: { eexists; split; [reflexivity | intros; contradiction]. }
    rewrite Hjson. cbn [bindE].
    assert (Hvalid : no_valid_links data = inr false \/
                     exists t, getitem first "resolutions" = inl t).
    { unfold no_valid_links.
      destruct data as [| | | | |d]; try discriminate.
      cbn [getitem] in Hitems.
      destruct (dict_get d "response") as [x|] eqn:Hd; [|discriminate].
      injection Hitems as ->.
      assert (truthy (JDict d) = true) as -> by (destruct d; [discriminate | reflexivity]).
      cbn [negb py_in bindE getitem]. rewrite Hd. cbn [negb bindE].
      destruct items as [| | | s | l | d']; try discriminate.
      - right. destruct s; [discriminate|]. injection Hfirst as <-. eauto.
      - left. destruct l; [discriminate|]. reflexivity. }
    destruct Hvalid as [->|(t & Ht)].
    - cbn [bindE]. rewrite Hitems. cbn [bindE]. rewrite Hfirst. cbn [bindE].
      destruct (getitem first "resolutions") as [t|resolutions] eqn:Hr; cbn [bindE].
      { eexists; split; [reflexivity|]. intros _ (r' & Hr' & _). discriminate. }
      destruct (getitem resolutions "Fast Download") as [t|link] eqn:Hl; cbn [bindE].
      { eexists; split; [reflexivity|]. intros _ (r' & Hr' & Hk).
        injection Hr' as <-. unfold lacks_key in Hk. unfold getitem in Hl.
        destruct resolutions; try discriminate.
        destruct (dict_get d "Fast Download"); [discriminate|]. congruence. }
      destruct Hlack as [Hk|(r' & Hr' & Hk)].
      + destruct first as [| | | | |d]; try discriminate.
        assert (getitem (JDict d) "title" = inl (KeyError "title")) as ->.
        { unfold lacks_key in Hk. cbn [getitem].
          destruct (dict_get d "title"); [discriminate | reflexivity]. }
        cbn [bindE]. eexists; split; [reflexivity|]. intros _ (r' & Hr' & Hk').
        injection Hr' as <-.
        destruct resolutions; try discriminate. cbn in Hk', Hl.
        destruct (dict_get d0 "Fast Download"); discriminate.
      + injection Hr' as <-.
        destruct resolutions; try discriminate.
        cbn in Hk, Hl. destruct (dict_get d "Fast Download"); discriminate.
    - destruct Hlack as [Hk|(r' & Hr' & _)]; [|congruence].
      destruct (no_valid_links data) as [t'|[|]]; cbn [bindE];
        try (eexists; split; [reflexivity|]; intros _ (r' & Hr' & _); congruence).
      rewrite Hitems. cbn [bindE]. rewrite Hfirst. cbn [bindE]. rewrite Ht.
      cbn [bindE]. eexists; split; [reflexivity|].
      intros _ (r' & Hr' & _); congruence. }
  destruct Hres as (e & Hres & Hkey).
  exists e. rewrite (run_resolve_failed _ _ _ Hres). cbn [fst snd fs]. auto.
Qed.

(** C1, as amended. A transfer with a declared content-length that succeeds
    returns the declared length as its total; the destination file then
    holds every chunk received, so the returned total is the number of bytes
    written whenever the chunks sum to the declared length. *)
Theorem declared_total_returned env w r declared path title n :
  video_get env = Some r ->
  content_length r = ContentLength declared ->
  fst (run env w) = inr (path, title, n) ->
  declared = Some n /\
  fs (snd (run env w)) !! path = Some (body_bytes (body r)) /\
  (total_bytes (body r) = n -> n = Z.of_nat (length (body_bytes (body r)))).
Proof.
  intros Hget Hcl Hrun.
  destruct (run_inr_inv _ _ _ _ _ Hrun) as (link & Hres & -> & Hd & ->).
  cbn [snd fs]. rewrite lookup_insert_eq.
  unfold download_outcome in *. rewrite Hget in *.
  destruct (negb (status_code r =? 200)); [discriminate|].
  unfold transfer_outcome in *. rewrite Hcl in *.
  destruct declared as [total|]; [|discriminate].
  assert (Hsr : forall x, stream_result (body_end r) total = inr x -> x = total).
  { unfold stream_result. destruct (body_end r); congruence. }
  destruct (total =? 0).
  - destruct (body r); cbn [fst snd] in *; [|discriminate].
    apply Hsr in Hd as ->. repeat split. intros <-. reflexivity.
  - cbn [fst snd] in *. apply Hsr in Hd as ->. repeat split.
    intros <-. symmetry. apply total_bytes_length.
Qed.

(** C3. When the server reports no content-length, no progress notification
    is made; and when the body arrives, it is written to the file as one
    piece, the result carries its length as the total, and the run adds
    nothing to the trace but the log record of the success. *)
Theorem no_content_length_one_shot env w link title r :
  resolve env = inr (link, title) ->
  video_get env = Some r ->
  status_code r = 200 ->
  content_length r = NoContentLength ->
  progress_calls (new_events w (snd (run env w))) = [] /\
  (body_end r = EndOfBody ->
   run env w =
   (inr (video_path_of title, title, Z.of_nat (length (body_bytes (body r)))),
    mkWorld (<[video_path_of title := body_bytes (body r)]> (fs w))
            (trace w ++ [LogInfo_downloaded title]))).
Proof.
  intros Hres Hget Hst Hcl.
  assert (Hd : download_of env title =
               match body_end r with
               | EndOfBody =>
                   (inr (Z.of_nat (length (body_bytes (body r)))), body_bytes (body r), [])
               | ConnectionBroken => (inl RequestException, [], [])
               end).
  { unfold download_outcome, transfer_outcome. rewrite Hget, Hst, Hcl. reflexivity. }
  split.
  - destruct (body_end r).
    + rewrite (run_succeeded _ _ _ _ _ Hres (f_equal (fun x => fst (fst x)) Hd)).
      cbn [snd]. rewrite new_events_app, Hd. reflexivity.
    + rewrite (run_failed _ _ _ _ _ Hres (f_equal (fun x => fst (fst x)) Hd)).
      cbn [snd]. rewrite new_events_app, Hd. cbn [snd app].
      unfold error_report. cbn. reflexivity.
  - intros Hend. rewrite Hend in Hd.
    rewrite (run_succeeded _ _ _ _ _ Hres (f_equal (fun x => fst (fst x)) Hd)).
    rewrite Hd. reflexivity.
Qed.

(** C6, as amended. When the connection breaks while the chunks of a
    transfer with a declared (non-zero) content-length are read, the
    operation raises the network exception, or the chat API's own when the
    error message of line 163 is refused; so no result is returned, and the
    destination file stays on disk with the bytes received so far. *)
Theorem broken_stream_leaves_partial_file env w link title r total :
  resolve env = inr (link, title) ->
  video_get env = Some r ->
  status_code r = 200 ->
  content_length r = ContentLength (Some total) ->
  total <> 0 ->
  body_end r = ConnectionBroken ->
  fst (run env w) = inl (reraised env RequestException) /\
  fs (snd (run env w)) !! video_path_of title = Some (body_bytes (body r)).
Proof.
  intros Hres Hget Hst Hcl Hne Hend.
  assert (Hd : download_of env title =
               (inl RequestException, body_bytes (body r),
                loop_events chat_id message_id user_mention user_id env title total
                  (LoopVars 0 0) (body r))).
  { unfold download_outcome, transfer_outcome. rewrite Hget, Hst, Hcl, Hend.
    cbn [negb Z.eqb]. destruct (Z.eqb_spec total 0); [contradiction | reflexivity]. }
  rewrite (run_failed _ _ _ _ _ Hres (f_equal (fun x => fst (fst x)) Hd)).
  cbn [fst snd fs]. rewrite Hd. cbn [fst snd].
  split; [reflexivity | apply lookup_insert_eq].
Qed.


(** *** The notifications of the loop *)

Local Notation pct total v c := (percentage_at total v c).
Local Notation is_due total v c := (due total v c).

Lemma progress_calls_step env title total v c :
  progress_calls (events_of_step env title total v c) =
  if is_due total v c then [(pct total v c, chunk_edit c)] else [].
Proof.
  unfold step_events. destruct (is_due total v c); [|reflexivity].
  destruct (chunk_edit c); reflexivity.
Qed.

Lemma progress_calls_app evs evs' :
  progress_calls (evs ++ evs') = progress_calls evs ++ progress_calls evs'.
Proof. apply omap_app. Qed.

Lemma progress_calls_report env e : progress_calls (report env e) = [].
Proof. unfold error_report. destruct (is_RequestException e); reflexivity. Qed.

Lemma watermark_step total v c :
  last_percentage_update (step_vars total v c) =
  if is_due total v c
  then match chunk_edit c with
       | None => pct total v c
       | Some _ => last_percentage_update v
       end
  else last_percentage_update v.
Proof. reflexivity. Qed.

Lemma watermark_fold env title total v chunks :
  last_percentage_update (loop_vars_after total v chunks) =
  fold_left (fun acc call => match snd call with None => fst call | Some _ => acc end)
    (progress_calls (events_of_loop env title total v chunks))
    (last_percentage_update v).
Proof.
  revert v. induction chunks as [|c rest IH]; intros v; [reflexivity|].
  cbn [loop_vars_after loop_events].
  rewrite progress_calls_app, fold_left_app, IH, progress_calls_step, watermark_step.
  destruct (is_due total v c); [|reflexivity].
  destruct (chunk_edit c); reflexivity.
Qed.

(** Percentages grow with the bytes done when the total is positive, and are
    never positive when it is negative. *)
Lemma percentage_mono (total a b : Z) :
  0 < total -> a <= b ->
  (inject_Z (100 * a) / inject_Z total <= inject_Z (100 * b) / inject_Z total)%Q.
Proof.
  intros Hpos Hab. unfold Qdiv. apply Qmult_le_compat_r.
  - rewrite <- Zle_Qle. lia.
  - apply Qinv_le_0_compat. replace 0%Q with (inject_Z 0) by reflexivity.
    rewrite <- Zle_Qle. lia.
Qed.

Lemma percentage_negative_total (total a : Z) :
  total < 0 -> 0 <= a -> (inject_Z (100 * a) / inject_Z total <= 0)%Q.
Proof.
  intros Hneg Ha. destruct total as [|p|p]; try lia.
  unfold Qdiv, Qmult, Qinv, Qle, inject_Z. cbn [Qnum Qden]. lia.
Qed.

Lemma chunk_len_nonneg c : 0 <= chunk_len c.
Proof. unfold chunk_len. lia. Qed.

Lemma never_due_negative_total total v c :
  total < 0 -> reachable total v -> is_due total v c = false.
Proof.
  intros Hneg [Hd Hl]. unfold due. rewrite (Hl Hneg).
  destruct (Qle_bool 7 _) eqn:E; [|reflexivity].
  apply Qle_bool_iff in E. exfalso.
  assert (H := percentage_negative_total total (bytes_after v c) Hneg).
  unfold bytes_after in H. specialize (H ltac:(pose proof (chunk_len_nonneg c); lia)).
  unfold percentage_at, bytes_after in E.
  assert (H7 : (7 <= 0)%Q).
  { eapply Qle_trans; [exact E|]. unfold Qminus.
    rewrite Qplus_0_r. exact H. }
  unfold Qle in H7. cbn in H7. lia.
Qed.

Lemma reachable_step total v c :
  reachable total v -> reachable total (step_vars total v c).
Proof.
  intros Hr. pose proof Hr as [Hd Hl]. split.
  - cbn. unfold bytes_after. pose proof (chunk_len_nonneg c). lia.
  - intros Hneg. rewrite watermark_step, (never_due_negative_total _ _ _ Hneg Hr).
    auto.
Qed.

Lemma reachable_after total v chunks :
  reachable total v -> reachable total (loop_vars_after total v chunks).
Proof.
  revert v. induction chunks as [|c rest IH]; intros v Hr; [exact Hr|].
  cbn [loop_vars_after]. apply IH, reachable_step, Hr.
Qed.

Lemma reachable_start total : reachable total (LoopVars 0 0).
Proof. split; [cbn; lia | reflexivity]. Qed.

(** The percentage a state stands at, for a non-zero total. *)
Local Notation standing total v :=
  (inject_Z (100 * downloaded_length v) / inject_Z total)%Q.

Lemma loop_calls_negative_total env title total v chunks :
  total < 0 -> reachable total v ->
  progress_calls (events_of_loop env title total v chunks) = [].
Proof.
  intros Hneg. revert v. induction chunks as [|c rest IH]; intros v Hr; [reflexivity|].
  cbn [loop_events].
  rewrite progress_calls_app, progress_calls_step,
    (never_due_negative_total _ _ _ Hneg Hr), (IH _ (reachable_step _ _ c Hr)).
  reflexivity.
Qed.

Lemma loop_calls_sorted_positive env title total v chunks :
  0 < total ->
  Forall (fun p => (standing total v <= p)%Q)
         (map fst (progress_calls (events_of_loop env title total v chunks))) /\
  StronglySorted Qle
         (map fst (progress_calls (events_of_loop env title total v chunks))).
Proof.
  intros Hpos. revert v. induction chunks as [|c rest IH]; intros v.
  - split; constructor.
  - cbn [loop_events]. rewrite progress_calls_app, progress_calls_step, map_app.
    destruct (IH (step_vars total v c)) as [Hlow Hsorted].
    assert (Hstep : (standing total v <= standing total (step_vars total v c))%Q).
    { apply percentage_mono; [exact Hpos|]. cbn. unfold bytes_after.
      pose proof (chunk_len_nonneg c). lia. }
    assert (Hlow' : Forall (fun p => (standing total v <= p)%Q)
              (map fst (progress_calls
                 (events_of_loop env title total (step_vars total v c) rest)))).
    { eapply Forall_impl; [exact Hlow|]. intros p Hp. cbn beta in Hp.
      eapply Qle_trans; [exact Hstep | exact Hp]. }
    destruct (is_due total v c); cbn [map app fst].
    + split.
      * constructor; [exact Hstep | exact Hlow'].
      * constructor; [exact Hsorted | exact Hlow].
    + split; assumption.
Qed.

Lemma loop_calls_sorted env title total chunks :
  total <> 0 ->
  StronglySorted Qle
    (map fst (progress_calls (events_of_loop env title total (LoopVars 0 0) chunks))).
Proof.
  intros Hne. destruct (Z.lt_total total 0) as [Hneg|[->|Hpos]]; [|contradiction|].
  - rewrite (loop_calls_negative_total _ _ _ _ _ Hneg (reachable_start total)).
    constructor.
  - apply loop_calls_sorted_positive, Hpos.
Qed.

(** The events of the download are empty or those of the loop over the body
    with a non-zero declared total. *)
Lemma download_events_shape env title :
  snd (download_of env title) = [] \/
  exists r total,
    video_get env = Some r /\ total <> 0 /\
    snd (download_of env title) =
      events_of_loop env title total (LoopVars 0 0) (body r).
Proof.
  unfold download_outcome.
  destruct (video_get env) as [r|]; [|left; reflexivity].
  destruct (negb (status_code r =? 200)); [left; reflexivity|].
  unfold transfer_outcome.
  destruct (content_length r) as [|[total|]].
  - destruct (body_end r); left; reflexivity.
  - destruct (Z.eqb_spec total 0) as [->|Hne].
    + destruct (body r); left; reflexivity.
    + right. exists r, total. auto.
  - left; reflexivity.
Qed.

Lemma run_progress_calls env w :
  progress_calls (new_events w (snd (run env w))) = [] \/
  exists title,
    progress_calls (new_events w (snd (run env w))) =
    progress_calls (snd (download_of env title)).
Proof.
  destruct (run_cases env w)
    as [(c & _ & Hr)|[(link & t & c & _ & _ & Hr)|(link & t & n & _ & _ & Hr)]];
    rewrite Hr; cbn [snd]; rewrite new_events_app.
  - left. apply progress_calls_report.
  - right. exists t. rewrite progress_calls_app, progress_calls_report, app_nil_r.
    reflexivity.
  - right. exists t. rewrite progress_calls_app. cbn. rewrite app_nil_r.
    reflexivity.
Qed.

(** C5, as amended. In any transfer the percentages shown by the successive
    progress notifications never decrease; and when the declared total is
    not negative, the percentage computed at a chunk is at most the one
    computed at any later chunk. *)
Theorem percentages_never_decrease env w :
  StronglySorted Qle (map fst (progress_calls (new_events w (snd (run env w))))) /\
  forall path title total before between v1 w1 v2 w2 p1 p2,
    0 <= total ->
    for_chunks (iteration env path title total) before EndOfBody (LoopVars 0 0) w
      = (inr v1, w1) ->
    for_chunks (iteration env path title total) between EndOfBody v1 w1
      = (inr v2, w2) ->
    percentage_of (downloaded_length v1) total = inr p1 ->
    percentage_of (downloaded_length v2) total = inr p2 ->
    (p1 <= p2)%Q.
Proof.
  split.
  - destruct (run_progress_calls env w) as [->|(title & ->)]; [constructor|].
    destruct (download_events_shape env title) as [->|(r & total & _ & Hne & ->)];
      [constructor|].
    apply loop_calls_sorted, Hne.
  - intros path title total before between v1 w1 v2 w2 p1 p2 Htot H1 H2 Hp1 Hp2.
    destruct (Z.eq_dec total 0) as [->|Hne]; [discriminate|].
    rewrite (percentage_of_nonzero _ _ Hne) in Hp1.
    rewrite (percentage_of_nonzero _ _ Hne) in Hp2.
    injection Hp1 as <-. injection Hp2 as <-.
    rewrite (for_chunks_nonzero _ _ _ _ _ _ _ _ Hne) in H1.
    injection H1 as <- <-.
    rewrite (for_chunks_nonzero _ _ _ _ _ _ _ _ Hne) in H2.
    injection H2 as <- _.
    apply percentage_mono; [lia|].
    clear. generalize (loop_vars_after total (LoopVars 0 0) before) as v.
    induction between as [|c rest IH]; intros v; cbn [loop_vars_after]; [lia|].
    etransitivity; [|apply IH]. cbn. unfold bytes_after.
    pose proof (chunk_len_nonneg c). lia.
Qed.

Lemma new_events_refl w : new_events w w = [].
Proof. unfold new_events. apply drop_all. Qed.

Lemma due_again total v c next :
  0 < total ->
  is_due total v c = true ->
  is_due total (LoopVars (bytes_after v c) (last_percentage_update v)) next = true.
Proof.
  unfold due. intros Hpos H. apply Qle_bool_iff in H. apply Qle_bool_iff.
  eapply Qle_trans; [exact H|]. cbn [last_percentage_update].
  unfold Qminus. apply Qplus_le_compat; [|apply Qle_refl].
  unfold percentage_at. apply percentage_mono; [exact Hpos|].
  unfold bytes_after at 2. cbn [downloaded_length].
  pose proof (chunk_len_nonneg next). lia.
Qed.

(** C10. At every point of the loop the watermark is the percentage of the
    last delivered progress notification (0 if none). An iteration changes
    it only by delivering a notification; when the delivery fails it is left
    as it was, and the next chunk makes the call again. *)
Theorem watermark_follows_delivery env path title total before c next w v w1 :
  for_chunks (iteration env path title total) before EndOfBody (LoopVars 0 0) w
    = (inr v, w1) ->
  last_percentage_update v = last_delivered (new_events w w1) /\
  forall v2 w2,
    iteration env path title total c v w1 = (inr v2, w2) ->
    last_percentage_update v2 =
      match progress_calls (new_events w1 w2) with
      | [(p, None)] => p
      | _ => last_percentage_update v
      end /\
    forall p e,
      progress_calls (new_events w1 w2) = [(p, Some e)] ->
      last_percentage_update v2 = last_percentage_update v /\
      exists v3 w3 p',
        iteration env path title total next v2 w2 = (inr v3, w3) /\
        progress_calls (new_events w2 w3) = [(p', chunk_edit next)].
Proof.
  intros Hloop.
  destruct (Z.eq_dec total 0) as [->|Hne].
  { destruct before as [|b rest]; [|discriminate].
    injection Hloop as <- <-. rewrite new_events_refl.
    split; [reflexivity|]. intros v2 w2 H. discriminate. }
  rewrite (for_chunks_nonzero _ _ _ _ _ _ _ _ Hne) in Hloop.
  injection Hloop as <- <-. rewrite new_events_app.
  split; [apply watermark_fold|].
  set (v := loop_vars_after total (LoopVars 0 0) before).
  assert (Hreach : reachable total v)
    by apply reachable_after, reachable_start.
  intros v2 w2 Hstep. rewrite (loop_body_nonzero _ _ _ _ _ _ _ Hne) in Hstep.
  injection Hstep as <- <-. rewrite new_events_app, progress_calls_step, watermark_step.
  split.
  { destruct (is_due total v c); [|reflexivity].
    destruct (chunk_edit c); reflexivity. }
  intros p e Hcall.
  destruct (is_due total v c) eqn:Hdue; [|discriminate].
  destruct (chunk_edit c) as [e'|] eqn:Hedit; [|discriminate].
  split; [reflexivity|].
  assert (Hpos : 0 < total).
  { destruct (Z.lt_total total 0) as [Hneg|[?|?]]; [|contradiction|assumption].
    rewrite (never_due_negative_total _ _ c Hneg Hreach) in Hdue. discriminate. }
  rewrite (loop_body_nonzero _ _ _ _ _ _ _ Hne).
  do 3 eexists. split; [reflexivity|].
  rewrite new_events_app, progress_calls_step.
  unfold step_vars at 1 2. rewrite Hdue, Hedit.
  rewrite (due_again _ _ _ next Hpos Hdue). reflexivity.
Qed.

(** *** Notifications that fail *)

Lemma body_bytes_delivered chunks :
  body_bytes (map delivered_chunk chunks) = body_bytes chunks.
Proof.
  unfold body_bytes. rewrite map_map. reflexivity.
Qed.

Lemma download_all_delivered env title :
  fst (download_of (all_delivered env) title) = fst (download_of env title).
Proof.
  unfold download_outcome, all_delivered. cbn [video_get].
  destruct (video_get env) as [r|]; [|reflexivity]. cbn [option_map status_code].
  destruct (negb (status_code r =? 200)); [reflexivity|].
  unfold transfer_outcome. cbn [content_length body body_end].
  rewrite body_bytes_delivered.
  destruct (content_length r) as [|[total|]]; [| |reflexivity].
  - destruct (body_end r); reflexivity.
  - destruct (total =? 0); [|reflexivity].
    destruct (body r); reflexivity.
Qed.

Lemma failures_logged_nil : failures_logged [].
Proof. intros bar cid mid e [|x before] after H; discriminate. Qed.

Lemma failures_logged_delivered text cid mid evs :
  failures_logged evs -> failures_logged (EditMessageText text cid mid None :: evs).
Proof.
  intros Hevs bar cid' mid' e [|x before] after H.
  - discriminate.
  - injection H as _ H. exact (Hevs _ _ _ _ _ _ H).
Qed.

Lemma failures_logged_failed text cid mid e evs :
  failures_logged evs ->
  failures_logged
    (EditMessageText text cid mid (Some e) :: LogWarning_progress_failed e :: evs).
Proof.
  intros Hevs bar cid' mid' e' [|x [|y before]] after H.
  - injection H as _ _ _ <- <-. eauto.
  - discriminate.
  - injection H as _ _ H. exact (Hevs _ _ _ _ _ _ H).
Qed.

Lemma failures_logged_loop env title total v chunks :
  failures_logged (events_of_loop env title total v chunks).
Proof.
  revert v. induction chunks as [|c rest IH]; intros v; [apply failures_logged_nil|].
  cbn [loop_events]. unfold step_events.
  destruct (is_due total v c); [|apply IH].
  destruct (chunk_edit c); cbn [app].
  - apply failures_logged_failed, IH.
  - apply failures_logged_delivered, IH.
Qed.

Lemma failures_logged_app evs tail :
  failures_logged evs ->
  Forall (fun ev => progress_call ev = None) tail ->
  failures_logged (evs ++ tail).
Proof.
  intros Hevs Htail bar cid mid e before after H.
  destruct (app_eq_app _ _ _ _ H) as (l & [[-> Hl]|[-> Hl]]).
  - destruct l as [|x l].
    + cbn [app] in Hl. rewrite <- Hl in Htail.
      apply Forall_cons in Htail as [Hbad _]. discriminate.
    + injection Hl as <- ->.
      destruct (Hevs _ _ _ _ _ _ eq_refl) as (after' & ->). eauto.
  - rewrite Hl in Htail. apply Forall_app in Htail as [_ Htail].
    apply Forall_cons in Htail as [Hbad _]. discriminate.
Qed.

(** C7. A progress notification that fails to be delivered does not abort
    the transfer: the outcome of the operation and the files on disk are
    exactly those of the same transfer with every notification delivered;
    and each failure is followed at once by the log record of it. *)
Theorem failed_notification_never_aborts env w :
  fst (run env w) = fst (run (all_delivered env) w) /\
  fs (snd (run env w)) = fs (snd (run (all_delivered env) w)) /\
  failures_logged (new_events w (snd (run env w))).
Proof.
  assert (Hres : resolve (all_delivered env) = resolve env) by reflexivity.
  assert (Hrr : forall e, reraised (all_delivered env) e = reraised env e)
    by reflexivity.
  destruct (run_cases env w)
    as [(c & Hc & Hr)|[(link & t & c & Hc & Hd & Hr)|(link & t & n & Hc & Hd & Hr)]];
    rewrite Hr; cbn [fst snd fs]; rewrite new_events_app.
  - rewrite (run_resolve_failed (all_delivered env) w c) by (rewrite Hres; exact Hc).
    repeat split.
    apply (failures_logged_app []); [apply failures_logged_nil|].
    unfold error_report. destruct (is_RequestException c); repeat constructor.
  - rewrite (run_failed (all_delivered env) w link t c);
      [|rewrite Hres; exact Hc|rewrite download_all_delivered; exact Hd].
    cbn [fst snd fs]. rewrite download_all_delivered. repeat split.
    apply failures_logged_app.
    + destruct (download_events_shape env t) as [->|(r & total & _ & _ & ->)];
        [apply failures_logged_nil | apply failures_logged_loop].
    + unfold error_report. destruct (is_RequestException c); repeat constructor.
  - rewrite (run_succeeded (all_delivered env) w link t n);
      [|rewrite Hres; exact Hc|rewrite download_all_delivered; exact Hd].
    cbn [fst snd fs]. rewrite download_all_delivered. repeat split.
    apply failures_logged_app.
    + destruct (download_events_shape env t) as [->|(r & total & _ & _ & ->)];
        [apply failures_logged_nil | apply failures_logged_loop].
    + repeat constructor.
Qed.

(** *** The cadence *)







End Properties.

(** ** The claims at concrete transfers *)

Lemma throughput_guarded_witness :
  (0 < 2)%Q /\ speed_of 10 2 = inr (inject_Z 10 / 2)%Q.
Proof.
  split; [reflexivity|].
  apply (proj1 (proj2 (proj2 (throughput_guarded 10 2)))). reflexivity.
Defined.

Lemma declared_total_returned_witness :
  video_get exact_body_env = Some exact_body /\
  content_length exact_body = ContentLength (Some 3) /\
  fst (download_video 1 2 "u" 3 exact_body_env empty_world)
    = inr ("Videos/clip.mp4", "clip", 3) /\
  (Some 3 = Some 3 /\
   fs (snd (download_video 1 2 "u" 3 exact_body_env empty_world)) !! "Videos/clip.mp4"
     = Some (body_bytes (body exact_body)) /\
   (total_bytes (body exact_body) = 3 ->
    3 = Z.of_nat (length (body_bytes (body exact_body))))).
Proof.
  split; [reflexivity|]. split; [reflexivity|]. split; [vm_compute; reflexivity|].
  apply (declared_total_returned 1 2 "u" 3 exact_body_env empty_world exact_body
           (Some 3) "Videos/clip.mp4" "clip" 3);
    vm_compute; reflexivity.
Defined.

(** C1 as stated fails: ten bytes are declared, three arrive and are
    written, and the result carries ten. *)
Lemma returned_total_not_bytes_written :
  exists path title n written,
    fst (download_video 1 2 "u" 3 short_body_env empty_world) = inr (path, title, n) /\
    fs (snd (download_video 1 2 "u" 3 short_body_env empty_world)) !! path
      = Some written /\
    n <> Z.of_nat (length written).
Proof.
  exists "Videos/clip.mp4", "clip", 10, bytes3.
  split; [vm_compute; reflexivity|]. split; [vm_compute; reflexivity|].
  vm_compute. discriminate.
Defined.



Lemma no_content_length_one_shot_witness :
  content_length no_length_body = NoContentLength /\
  progress_calls
    (new_events empty_world (snd (download_video 1 2 "u" 3 no_length_env empty_world)))
    = [] /\
  (body_end no_length_body = EndOfBody ->
   download_video 1 2 "u" 3 no_length_env empty_world =
   (inr (video_path_of "clip", "clip",
         Z.of_nat (length (body_bytes (body no_length_body)))),
    mkWorld (<[video_path_of "clip" := body_bytes (body no_length_body)]>
               (fs empty_world))
            (trace empty_world ++ [LogInfo_downloaded "clip"]))).
Proof.
  split; [reflexivity|].
  apply (no_content_length_one_shot 1 2 "u" 3 no_length_env empty_world
           (JStr "https://host/clip") "clip" no_length_body);
    reflexivity.
Defined.

Lemma missing_field_fails_witness :
  lacks_key (JDict [("HD Video", JStr "https://host/hd")]) "Fast Download" = true /\
  exists e,
    resolve missing_link_env = inl e /\
    fst (download_video 1 2 "u" 3 missing_link_env empty_world)
      = inl (reraised missing_link_env e) /\
    (forall path, path <> "bot.log" ->
       fs (snd (download_video 1 2 "u" 3 missing_link_env empty_world)) !! path
       = fs empty_world !! path) /\
    (api_status_code (ApiResponse 200 (Some payload_without_link)) = 200 ->
     (exists resolutions,
        getitem first_without_link "resolutions" = inr resolutions /\
        lacks_key resolutions "Fast Download" = true) ->
     e = KeyError "Fast Download").
Proof.
  split; [reflexivity|].
  apply (missing_field_fails 1 2 "u" 3 missing_link_env empty_world
           (ApiResponse 200 (Some payload_without_link)) payload_without_link
           (JList [first_without_link]) first_without_link);
    try reflexivity.
  right. exists (JDict [("HD Video", JStr "https://host/hd")]).
  split; reflexivity.
Defined.

(** C4 as stated fails when the error message cannot be delivered: Fast
    Download is missing, the resolution raises the KeyError of that key, the
    chat API refuses the message of line 168, and the exception that leaves
    the operation is the chat API's, not the resolution's. *)
Lemma resolution_error_replaced_by_chat_error :
  (exists resolutions,
     getitem first_without_link "resolutions" = inr resolutions /\
     lacks_key resolutions "Fast Download" = true) /\
  resolve unreported_missing_link_env = inl (KeyError "Fast Download") /\
  fst (download_video 1 2 "u" 3 unreported_missing_link_env empty_world)
    = inl ApiTelegramException.
Proof.
  split.
  - exists (JDict [("HD Video", JStr "https://host/hd")]). split; reflexivity.
  - split; vm_compute; reflexivity.
Defined.

Lemma percentages_never_decrease_witness :
  StronglySorted Qle
    (map fst
       (progress_calls
          (new_events empty_world
             (snd (download_video 1 2 "u" 3 retry_env empty_world))))) /\
  (inject_Z (100 * 1) / inject_Z 100 <= inject_Z (100 * 3) / inject_Z 100)%Q.
Proof.
  split.
  - exact (proj1 (percentages_never_decrease 1 2 "u" 3 retry_env empty_world)).
  - apply (proj2 (percentages_never_decrease 1 2 "u" 3 retry_env empty_world)
             "Videos/clip.mp4" "clip" 100
             [one_byte None] [one_byte None; one_byte None]
             (LoopVars 1 0) (mkWorld ∅ []) (LoopVars 3 0) (mkWorld ∅ []));
      first [lia | vm_compute; reflexivity].
Defined.

(** C5 as stated fails for the computed percentages when the declared
    content-length is negative: with -5 declared and two chunks of three
    bytes, the transfer succeeds and returns -5, and the percentage computed
    at the second chunk is below the one computed at the first. *)
Lemma negative_length_percentages_decrease :
  fst (download_video 1 2 "u" 3 negative_length_env empty_world)
    = inr ("Videos/clip.mp4", "clip", -5) /\
  exists v1 w1 v2 w2 p1 p2,
    for_chunks (loop_body 1 2 "u" 3 negative_length_env "Videos/clip.mp4" "clip" (-5))
      [Chunk bytes3 1 None] EndOfBody (LoopVars 0 0) empty_world = (inr v1, w1) /\
    for_chunks (loop_body 1 2 "u" 3 negative_length_env "Videos/clip.mp4" "clip" (-5))
      [Chunk bytes3 2 None] EndOfBody v1 w1 = (inr v2, w2) /\
    percentage_of (downloaded_length v1) (-5) = inr p1 /\
    percentage_of (downloaded_length v2) (-5) = inr p2 /\
    (p2 < p1)%Q.
Proof.
  split; [vm_compute; reflexivity|].
  exists (LoopVars 3 0), empty_world, (LoopVars 6 0), empty_world,
    (inject_Z (100 * 3) / inject_Z (-5))%Q, (inject_Z (100 * 6) / inject_Z (-5))%Q.
  repeat split; vm_compute; reflexivity.
Defined.

Lemma broken_stream_leaves_partial_file_witness :
  body_end broken_body = ConnectionBroken /\
  fst (download_video 1 2 "u" 3 broken_env empty_world)
    = inl (reraised broken_env RequestException) /\
  fs (snd (download_video 1 2 "u" 3 broken_env empty_world)) !! video_path_of "clip"
    = Some (body_bytes (body broken_body)).
Proof.
  split; [reflexivity|].
  apply (broken_stream_leaves_partial_file 1 2 "u" 3 broken_env empty_world
           (JStr "https://host/clip") "clip" broken_body 10);
    first [reflexivity | lia].
Defined.

(** C6 as stated fails when the error message cannot be delivered: the
    connection breaks after three bytes, the chat API refuses the message of
    line 163, and the exception that leaves the operation is the chat API's,
    not the network's. The partial file is on disk all the same. *)
Lemma network_error_replaced_by_chat_error :
  body_end broken_body = ConnectionBroken /\
  fst (download_video 1 2 "u" 3 unreported_broken_env empty_world)
    = inl ApiTelegramException /\
  fs (snd (download_video 1 2 "u" 3 unreported_broken_env empty_world))
    !! "Videos/clip.mp4" = Some bytes3.
Proof.
  split; [reflexivity|]. split; vm_compute; reflexivity.
Defined.



Lemma watermark_follows_delivery_witness :
  for_chunks (loop_body 1 2 "u" 3 retry_env "Videos/clip.mp4" "clip" 100)
    (repeat (one_byte None) 6) EndOfBody (LoopVars 0 0) empty_world
    = (inr (LoopVars 6 0), empty_world) /\
  last_percentage_update (LoopVars 6 0)
    = last_delivered (new_events empty_world empty_world) /\
  forall v2 w2,
    loop_body 1 2 "u" 3 retry_env "Videos/clip.mp4" "clip" 100
      (one_byte (Some ApiTelegramException)) (LoopVars 6 0) empty_world = (inr v2, w2) ->
    last_percentage_update v2 =
      match progress_calls (new_events empty_world w2) with
      | [(p, None)] => p
      | _ => last_percentage_update (LoopVars 6 0)
      end /\
    forall p e,
      progress_calls (new_events empty_world w2) = [(p, Some e)] ->
      last_percentage_update v2 = last_percentage_update (LoopVars 6 0) /\
      exists v3 w3 p',
        loop_body 1 2 "u" 3 retry_env "Videos/clip.mp4" "clip" 100
          (one_byte None) v2 w2 = (inr v3, w3) /\
        progress_calls (new_events w2 w3) = [(p', chunk_edit (one_byte None))].
Proof.
  split; [vm_compute; reflexivity|].
  apply (watermark_follows_delivery 1 2 "u" 3 retry_env "Videos/clip.mp4" "clip" 100
           (repeat (one_byte None) 6) (one_byte (Some ApiTelegramException))
           (one_byte None) empty_world (LoopVars 6 0) empty_world).
  vm_compute. reflexivity.
Defined.

(** * Further properties of [download_video] *)

Section MoreProperties.

Variables (chat_id message_id : Z) (user_mention : string) (user_id : Z).

Local Notation run := (download_video chat_id message_id user_mention user_id).
Local Notation events_of_step env title total :=
  (step_events chat_id message_id user_mention user_id env title total).
Local Notation events_of_loop env title total :=
  (loop_events chat_id message_id user_mention user_id env title total).
Local Notation download_of env title :=
  (download_outcome chat_id message_id user_mention user_id env title).
Local Notation report env e := (error_report chat_id message_id env e).
Local Notation cases env w :=
  (run_cases chat_id message_id user_mention user_id env w).

(** *** Which file is touched *)

Lemma download_bytes_on_request_failure env title :
  match video_get env with
  | None => True
  | Some r => status_code r <> 200 \/ content_length r = ContentLength None
  end ->
  exists e, fst (download_of env title) = (inl e, []).
Proof.
  unfold download_outcome.
  destruct (video_get env) as [r|]; [|eauto].
  intros [Hs|Hc].
  - destruct (Z.eqb_spec (status_code r) 200); [contradiction|]. cbn [negb]. eauto.
  - destruct (negb (status_code r =? 200)); [eauto|].
    unfold transfer_outcome. rewrite Hc. eauto.
Qed.

(** X1. Besides the logger's file bot.log, to which every log record is
    appended, [download_video] changes no file but the video file: any
    other path holds after the call what it held before. *)
Theorem only_the_video_file_is_touched env w path :
  path <> "bot.log" ->
  fs (snd (run env w)) !! path = fs w !! path \/
  exists link title, resolve env = inr (link, title) /\ path = video_path_of title.
Proof.
  intros _.
  destruct (cases env w)
    as [(c & _ & Hr)|[(link & t & c & Hres & _ & Hr)|(link & t & n & Hres & _ & Hr)]];
    rewrite Hr; cbn [snd fs].
  - left. reflexivity.
  - destruct (decide (video_path_of t = path)) as [<-|Hne]; [right; eauto|].
    left. apply lookup_insert_ne, Hne.
  - destruct (decide (video_path_of t = path)) as [<-|Hne]; [right; eauto|].
    left. apply lookup_insert_ne, Hne.
Qed.

(** X2. The file is opened for writing before the video is requested: when
    the request raises, answers with a status other than 200, or carries a
    content-length that is no integer, the call fails and leaves the video
    file on disk empty, whatever it held before. *)
Theorem failed_request_leaves_empty_file env w link title :
  resolve env = inr (link, title) ->
  match video_get env with
  | None => True
  | Some r => status_code r <> 200 \/ content_length r = ContentLength None
  end ->
  (exists e, fst (run env w) = inl e) /\
  fs (snd (run env w)) !! video_path_of title = Some [].
Proof.
  intros Hres Hreq.
  destruct (download_bytes_on_request_failure env title Hreq) as (e & Hd).
  rewrite (run_failed _ _ _ _ _ _ _ _ e Hres) by (rewrite Hd; reflexivity).
  cbn [fst snd fs]. rewrite Hd. cbn [snd].
  split; [eauto | apply lookup_insert_eq].
Qed.


End MoreProperties.

(** *** The file name *)

Lemma sanitize_chars_safe (t : string) (c : ascii) :
  In c (list_ascii_of_string (sanitize t)) -> path_unsafe c = false.
Proof.
  induction t as [|a t IH]; cbn [sanitize]; [intros []|].
  destruct (path_unsafe a) eqn:Ha; [exact IH|].
  cbn [list_ascii_of_string]. intros [<-|Hin]; [exact Ha | exact (IH Hin)].
Qed.

Lemma resolved_title_sanitized env link title :
  resolve env = inr (link, title) -> exists raw, title = sanitize raw.
Proof.
  unfold resolve, bindE. intros H.
  repeat match type of H with
         | context [match ?x with _ => _ end] => destruct x eqn:?; try discriminate
         end.
  match goal with
  | E : sanitized_title ?j = inr _ |- _ =>
      destruct j; try discriminate; injection E as <-
  end.
  injection H as _ <-. eauto.
Qed.

(** X4. The title under which a resolved video is stored holds none of the
    nine characters of the class of line 111; in particular no slash and no
    backslash, so the video path has no directory part but Videos. *)
Theorem resolved_title_has_no_unsafe_character env link title c :
  resolve env = inr (link, title) ->
  In c (list_ascii_of_string title) ->
  ~ In c ["<"; ">"; ":"; ascii_of_nat 34; "/"; "\"; "|"; "?"; "*"]%char.
Proof.
  intros Hres Hc Hbad.
  destruct (resolved_title_sanitized _ _ _ Hres) as (raw & ->).
  apply sanitize_chars_safe in Hc.
  assert (Ht : path_unsafe c = true).
  { unfold path_unsafe. apply existsb_exists. exists c.
    split; [exact Hbad | apply Ascii.eqb_refl]. }
  congruence.
Qed.

Lemma sanitize_path_safe (t : string) : path_safe (sanitize t) = true.
Proof.
  induction t as [|a t IH]; [reflexivity|]. cbn [sanitize].
  destruct (path_unsafe a) eqn:Ha; [exact IH|].
  cbn [path_safe]. rewrite Ha, IH. reflexivity.
Qed.

(** X5. Sanitizing leaves a title as it is exactly when the title holds no
    character of the class, and sanitizing twice is sanitizing once. *)
Theorem sanitize_fixes_safe_titles (t : string) :
  (sanitize t = t <-> path_safe t = true) /\
  sanitize (sanitize t) = sanitize t.
Proof.
  assert (Hfix : forall s, path_safe s = true -> sanitize s = s).
  { induction s as [|a s IH]; [reflexivity|]. cbn [path_safe sanitize].
    destruct (path_unsafe a); cbn [negb andb]; [discriminate|].
    intros Hs. rewrite (IH Hs). reflexivity. }
  split; [split|].
  - intros <-. apply sanitize_path_safe.
  - apply Hfix.
  - apply Hfix, sanitize_path_safe.
Qed.

(** *** How often and what the loop notifies *)

Section Notifications.

Variables (chat_id message_id : Z) (user_mention : string) (user_id : Z).

Local Notation run := (download_video chat_id message_id user_mention user_id).
Local Notation events_of_step env title total :=
  (step_events chat_id message_id user_mention user_id env title total).
Local Notation events_of_loop env title total :=
  (loop_events chat_id message_id user_mention user_id env title total).
Local Notation download_of env title :=
  (download_outcome chat_id message_id user_mention user_id env title).
Local Notation report env e := (error_report chat_id message_id env e).
Local Notation cases env w :=
  (run_cases chat_id message_id user_mention user_id env w).

Lemma delivered_app evs evs' :
  delivered_percentages (evs ++ evs')
  = delivered_percentages evs ++ delivered_percentages evs'.
Proof.
  unfold delivered_percentages.
  rewrite progress_calls_app, List.filter_app, map_app. reflexivity.
Qed.

Lemma delivered_step env title total v c :
  delivered_percentages (events_of_step env title total v c) =
  if due total v c
  then match chunk_edit c with
       | None => [percentage_at total v c]
       | Some _ => []
       end
  else [].
Proof.
  unfold delivered_percentages. rewrite progress_calls_step.
  destruct (due total v c); [|reflexivity].
  destruct (chunk_edit c); reflexivity.
Qed.

Lemma loop_delivered_spaced env title total v chunks :
  Sorted seven_apart
    (last_percentage_update v
       :: delivered_percentages (events_of_loop env title total v chunks)).
Proof.
  revert v. induction chunks as [|c rest IH]; intros v.
  - repeat constructor.
  - cbn [loop_events]. rewrite delivered_app, delivered_step.
    specialize (IH (step_vars total v c)). rewrite watermark_step in IH.
    destruct (due total v c) eqn:Hdue; [|exact IH].
    destruct (chunk_edit c); [exact IH|].
    cbn [app]. constructor; [exact IH|]. constructor.
    unfold due in Hdue. apply Qle_bool_iff in Hdue.
    unfold seven_apart. lra.
Qed.

(** The events of the download are empty or those of the loop over the body
    of a response that declares a non-zero content-length. *)
Lemma download_events_declared env title :
  snd (download_of env title) = [] \/
  exists r total,
    video_get env = Some r /\ status_code r = 200 /\
    content_length r = ContentLength (Some total) /\ total <> 0 /\
    snd (download_of env title) =
      events_of_loop env title total (LoopVars 0 0) (body r).
Proof.
  unfold download_outcome.
  destruct (video_get env) as [r|]; [|left; reflexivity].
  destruct (Z.eqb_spec (status_code r) 200) as [Hs|Hs]; [|left; reflexivity].
  cbn [negb]. unfold transfer_outcome.
  destruct (content_length r) as [|[total|]] eqn:Hcl.
  - destruct (body_end r); left; reflexivity.
  - destruct (Z.eqb_spec total 0) as [->|Hne].
    + destruct (body r); left; reflexivity.
    + right. exists r, total. auto.
  - left; reflexivity.
Qed.

(** The events a run adds: those of the download, if the resolution
    succeeded, then one or two that are no progress notification. *)
Lemma run_events_split env w :
  exists evs tail,
    new_events w (snd (run env w)) = evs ++ tail /\
    Forall (fun ev => progress_call ev = None) tail /\
    (evs = [] \/
     exists link title,
       resolve env = inr (link, title) /\ evs = snd (download_of env title)).
Proof.
  destruct (cases env w)
    as [(c & _ & Hr)|[(link & t & c & Hres & _ & Hr)|(link & t & n & Hres & _ & Hr)]];
    rewrite Hr; cbn [snd]; rewrite new_events_app.
  - exists [], (report env c). repeat split; [|auto].
    unfold error_report. destruct (is_RequestException c); repeat constructor.
  - exists (snd (download_of env t)), (report env c). repeat split; [|eauto].
    unfold error_report. destruct (is_RequestException c); repeat constructor.
  - exists (snd (download_of env t)), [LogInfo_downloaded t].
    repeat split; [repeat constructor | eauto].
Qed.

Lemma delivered_tail tail :
  Forall (fun ev => progress_call ev = None) tail -> delivered_percentages tail = [].
Proof.
  unfold delivered_percentages, progress_calls.
  induction 1 as [|ev tail Hev _ IH]; [reflexivity|].
  cbn. rewrite Hev. exact IH.
Qed.

Lemma run_delivered_spaced env w :
  Sorted seven_apart
    (0%Q :: delivered_percentages (new_events w (snd (run env w)))).
Proof.
  destruct (run_events_split env w) as (evs & tail & -> & Htail & Hevs).
  rewrite delivered_app, (delivered_tail _ Htail), app_nil_r.
  destruct Hevs as [->|(link & title & _ & ->)]; [repeat constructor|].
  destruct (download_events_declared env title)
    as [->|(r & total & _ & _ & _ & _ & ->)]; [repeat constructor|].
  apply (loop_delivered_spaced env title total (LoopVars 0 0)).
Qed.

(** X6. Whatever the chunks and whatever the chat API answers, successive
    delivered progress notifications are at least 7 points apart, and the
    first one shows at least 7 percent. *)
Theorem delivered_notifications_seven_apart env w :
  Sorted seven_apart
    (0%Q :: delivered_percentages (new_events w (snd (run env w)))).
Proof.
  destruct (run_events_split env w) as (evs & tail & -> & Htail & Hevs).
  rewrite delivered_app, (delivered_tail _ Htail), app_nil_r.
  destruct Hevs as [->|(link & title & _ & ->)]; [repeat constructor|].
  destruct (download_events_declared env title)
    as [->|(r & total & _ & _ & _ & _ & ->)]; [repeat constructor|].
  apply (loop_delivered_spaced env title total (LoopVars 0 0)).
Qed.

Lemma percentage_at_most_100 (total a : Z) :
  0 < total -> a <= total ->
  (inject_Z (100 * a) / inject_Z total <= 100)%Q.
Proof.
  intros Hpos Ha. apply Qle_shift_div_r.
  - replace 0%Q with (inject_Z 0) by reflexivity. rewrite <- Zlt_Qlt. exact Hpos.
  - replace 100%Q with (inject_Z 100) by reflexivity.
    rewrite <- inject_Z_mult, <- Zle_Qle. lia.
Qed.

Lemma total_bytes_nonneg chunks : 0 <= total_bytes chunks.
Proof.
  induction chunks as [|c rest IH]; cbn [total_bytes]; [lia|].
  pose proof (chunk_len_nonneg c). lia.
Qed.

Lemma loop_percentages_bounded env title total v chunks :
  0 < total ->
  downloaded_length v + total_bytes chunks <= total ->
  Forall (fun call => (fst call <= 100)%Q)
         (progress_calls (events_of_loop env title total v chunks)).
Proof.
  intros Hpos. revert v. induction chunks as [|c rest IH]; intros v Hsum.
  - constructor.
  - cbn [loop_events total_bytes] in *.
    rewrite progress_calls_app, progress_calls_step. apply Forall_app. split.
    + destruct (due total v c); constructor; [|constructor].
      cbn [fst]. unfold percentage_at, bytes_after.
      apply percentage_at_most_100; [exact Hpos|].
      pose proof (total_bytes_nonneg rest). lia.
    + apply IH. cbn. unfold bytes_after. lia.
Qed.

Lemma spaced_count (l : list Q) :
  forall a,
    Sorted seven_apart (a :: l) ->
    Forall (fun p => (p <= 100)%Q) (a :: l) ->
    (a + 7 * inject_Z (Z.of_nat (length l)) <= 100)%Q.
Proof.
  induction l as [|b l IH]; intros a Hs Hb.
  - apply Forall_cons in Hb as [Ha _].
    change (inject_Z (Z.of_nat (length (@nil Q)))) with 0%Q. lra.
  - apply Sorted_inv in Hs as [Hs Hhd]. apply HdRel_inv in Hhd.
    apply Forall_cons in Hb as [_ Hb]. specialize (IH b Hs Hb).
    unfold seven_apart in Hhd.
    replace (Z.of_nat (length (b :: l))) with (Z.of_nat (length l) + 1)
      by (cbn [length]; lia).
    rewrite inject_Z_plus. change (inject_Z 1) with 1%Q. lra.
Qed.

(** X7. When the chunks of a transfer carry no more bytes than the declared
    content-length, at most 14 progress notifications are delivered, however
    the bytes are cut into chunks and whatever notifications fail. *)
Theorem at_most_fourteen_delivered env w r total :
  video_get env = Some r ->
  content_length r = ContentLength (Some total) ->
  total_bytes (body r) <= total ->
  (length (delivered_percentages (new_events w (snd (run env w)))) <= 14)%nat.
Proof.
  intros Hget Hcl Hsum.
  pose proof (run_delivered_spaced env w) as Hsp.
  destruct (run_events_split env w) as (evs & tail & Heq & Htail & Hevs).
  rewrite Heq in *.
  rewrite delivered_app, (delivered_tail _ Htail), app_nil_r in *.
  destruct Hevs as [->|(link & title & _ & ->)]; [cbn; lia|].
  destruct (download_events_declared env title)
    as [->|(r' & total' & Hget' & _ & Hcl' & Hne & Hev)]; [cbn; lia|].
  rewrite Hev in *. rewrite Hget in Hget'. injection Hget' as <-.
  rewrite Hcl in Hcl'. injection Hcl' as <-.
  assert (Hpos : 0 < total) by (pose proof (total_bytes_nonneg (body r)); lia).
  assert (Hb : Forall (fun p => (p <= 100)%Q)
                 (delivered_percentages
                    (events_of_loop env title total (LoopVars 0 0) (body r)))).
  { pose proof (loop_percentages_bounded env title total (LoopVars 0 0)
                  (body r) Hpos ltac:(cbn; lia)) as Hall.
    rewrite List.Forall_forall in Hall. apply List.Forall_forall.
    intros p Hp. unfold delivered_percentages in Hp.
    apply in_map_iff in Hp as (call & <- & Hcall).
    apply filter_In in Hcall as [Hcall _]. exact (Hall call Hcall). }
  assert (Hb0 : Forall (fun p => (p <= 100)%Q)
                  (0%Q :: delivered_percentages
                     (events_of_loop env title total (LoopVars 0 0) (body r))))
    by (constructor; [lra | exact Hb]).
  pose proof (spaced_count _ 0%Q Hsp Hb0) as Hcount.
  assert (Hz : (inject_Z (7 * Z.of_nat (length (delivered_percentages
                  (events_of_loop env title total (LoopVars 0 0) (body r)))))
                <= inject_Z 100)%Q).
  { rewrite inject_Z_mult. change (inject_Z 7) with 7%Q.
    change (inject_Z 100) with 100%Q. lra. }
  rewrite <- Zle_Qle in Hz. lia.
Qed.

Lemma speed_at_nonneg env v c :
  0 <= downloaded_length v -> (0 <= speed_at env v c)%Q.
Proof.
  intros Hd. unfold speed_at.
  destruct (Qltb 0 (chunk_time c - start_clock env)) eqn:E; [|lra].
  apply Qltb_lt in E. apply Qle_shift_div_l; [exact E|].
  rewrite Qmult_0_l. replace 0%Q with (inject_Z 0) by reflexivity.
  rewrite <- Zle_Qle. unfold bytes_after. pose proof (chunk_len_nonneg c). lia.
Qed.

Lemma loop_bar_content env title total v chunks bar cid mid answer :
  0 <= downloaded_length v ->
  (0 <= last_percentage_update v)%Q ->
  In (EditMessageText (ProgressText bar) cid mid answer)
     (events_of_loop env title total v chunks) ->
  exists k,
    (0 < k <= length chunks)%nat /\
    bar_done bar = downloaded_length v + total_bytes (take k chunks) /\
    bar_filename bar = title /\
    bar_status bar = "Downloading" /\
    bar_total_size bar = total /\
    bar_percentage bar = (inject_Z (100 * bar_done bar) / inject_Z total)%Q /\
    (7 <= bar_percentage bar)%Q /\
    (0 <= bar_speed bar)%Q /\
    bar_user_mention bar = user_mention /\
    bar_user_id bar = user_id /\
    cid = chat_id /\ mid = message_id.
Proof.
  revert v. induction chunks as [|c rest IH]; intros v Hd Hl Hin; [destruct Hin|].
  cbn [loop_events] in Hin. apply in_app_or in Hin as [Hin|Hin].
  - assert (Hbar : due total v c = true /\
                   bar = bar_at user_mention user_id env title total v c /\
                   cid = chat_id /\ mid = message_id).
    { unfold step_events in Hin.
      destruct (due total v c); [|destruct Hin].
      destruct (chunk_edit c); cbn [In] in Hin;
        repeat match type of Hin with
               | _ \/ _ => destruct Hin as [Hin|Hin]
               | False => destruct Hin
               end;
        try discriminate; injection Hin as <- <- <-; auto. }
    destruct Hbar as (Hdue & -> & -> & ->).
    exists 1%nat. cbn [length firstn total_bytes bar_at format_progress_bar
                       bar_done bar_filename bar_status bar_total_size
                       bar_percentage bar_speed bar_user_mention bar_user_id].
    repeat split; try reflexivity; try lia.
    + change (take 0 rest) with (@nil chunk). cbn [total_bytes].
      unfold bytes_after. lia.
    + unfold due in Hdue. apply Qle_bool_iff in Hdue. lra.
    + apply speed_at_nonneg, Hd.
  - assert (Hd' : 0 <= downloaded_length (step_vars total v c)).
    { cbn. unfold bytes_after. pose proof (chunk_len_nonneg c). lia. }
    assert (Hl' : (0 <= last_percentage_update (step_vars total v c))%Q).
    { rewrite watermark_step. destruct (due total v c) eqn:Hdue; [|exact Hl].
      destruct (chunk_edit c); [exact Hl|].
      unfold due in Hdue. apply Qle_bool_iff in Hdue. lra. }
    destruct (IH _ Hd' Hl' Hin) as (k & Hk & Hdone & Hrest).
    exists (S k). cbn [length firstn total_bytes].
    split; [lia|]. split; [|exact Hrest].
    rewrite Hdone. cbn. unfold bytes_after. lia.
Qed.

(** X8. Every progress notification of a transfer edits the message it was
    given and shows consistent numbers: the sanitized title, the declared
    content-length as the total, as bytes done the size of the chunks
    received so far, the percentage computed from these two, which is at
    least 7, and a speed that is not negative. *)
Theorem progress_notification_content env w bar cid mid answer :
  In (EditMessageText (ProgressText bar) cid mid answer)
     (new_events w (snd (run env w))) ->
  exists link title r total k,
    resolve env = inr (link, title) /\
    video_get env = Some r /\
    content_length r = ContentLength (Some total) /\
    (0 < k <= length (body r))%nat /\
    bar_done bar = total_bytes (take k (body r)) /\
    bar_filename bar = title /\
    bar_status bar = "Downloading" /\
    bar_total_size bar = total /\
    bar_percentage bar = (inject_Z (100 * bar_done bar) / inject_Z total)%Q /\
    (7 <= bar_percentage bar)%Q /\
    (0 <= bar_speed bar)%Q /\
    bar_user_mention bar = user_mention /\
    bar_user_id bar = user_id /\
    cid = chat_id /\ mid = message_id.
Proof.
  intros Hin.
  destruct (run_events_split env w) as (evs & tail & Heq & Htail & Hevs).
  rewrite Heq in Hin. apply in_app_or in Hin as [Hin|Hin].
  2: { rewrite List.Forall_forall in Htail. apply Htail in Hin. discriminate. }
  destruct Hevs as [->|(link & title & Hres & ->)]; [destruct Hin|].
  destruct (download_events_declared env title)
    as [Hnil|(r & total & Hget & _ & Hcl & _ & Hev)].
  { rewrite Hnil in Hin. destruct Hin. }
  rewrite Hev in Hin.
  destruct (loop_bar_content env title total (LoopVars 0 0) (body r)
              bar cid mid answer ltac:(cbn; lia) ltac:(cbn; lra) Hin)
    as (k & Hk & Hdone & Hrest).
  exists link, title, r, total, k.
  split; [exact Hres|]. split; [exact Hget|]. split; [exact Hcl|].
  split; [exact Hk|]. split; [|exact Hrest].
  rewrite Hdone. cbn [downloaded_length]. lia.
Qed.

Lemma loop_has_no_error_edit env title total v chunks :
  existsb is_error_edit (events_of_loop env title total v chunks) = false.
Proof.
  revert v. induction chunks as [|c rest IH]; intros v; [reflexivity|].
  cbn [loop_events]. rewrite existsb_app, IH, orb_false_r.
  unfold step_events. destruct (due total v c); [|reflexivity].
  destruct (chunk_edit c); reflexivity.
Qed.

Lemma run_failure_has_error_text env w e :
  fst (run env w) = inl e ->
  existsb is_error_edit (new_events w (snd (run env w))) = true.
Proof.
  assert (Hrep : forall c, existsb is_error_edit (report env c) = true).
  { intros c. unfold error_report. destruct (is_RequestException c); reflexivity. }
  destruct (cases env w)
    as [(c & _ & Hr)|[(link & t & c & _ & _ & Hr)|(link & t & n & _ & _ & Hr)]];
    rewrite Hr; cbn [fst snd]; rewrite new_events_app; intros H.
  - apply Hrep.
  - rewrite existsb_app, Hrep. apply orb_true_r.
  - discriminate.
Qed.

(** X9. The chat shows an error text exactly when the call fails: a call
    that returns a result has put no Network Error or Download failed text
    in the chat, and a call that raises has put one there. *)
Theorem error_text_iff_failure env w :
  (exists e, fst (run env w) = inl e) <->
  existsb is_error_edit (new_events w (snd (run env w))) = true.
Proof.
  assert (Hrep : forall c, existsb is_error_edit (report env c) = true).
  { intros c. unfold error_report. destruct (is_RequestException c); reflexivity. }
  assert (Hdl : forall t, existsb is_error_edit (snd (download_of env t)) = false).
  { intros t. destruct (download_events_declared env t)
      as [->|(r & total & _ & _ & _ & _ & ->)];
      [reflexivity | apply loop_has_no_error_edit]. }
  destruct (cases env w)
    as [(c & _ & Hr)|[(link & t & c & _ & _ & Hr)|(link & t & n & _ & _ & Hr)]];
    rewrite Hr; cbn [fst snd]; rewrite new_events_app.
  - split; [intros _; apply Hrep | eauto].
  - split; [intros _ | eauto]. rewrite existsb_app, Hrep. apply orb_true_r.
  - rewrite existsb_app, Hdl. cbn.
    split; [intros (e & He); discriminate | discriminate].
Qed.

Lemma run_percentages_bounded env w r total :
  video_get env = Some r ->
  content_length r = ContentLength (Some total) ->
  total_bytes (body r) <= total ->
  Forall (fun call => (7 <= fst call <= 100)%Q)
         (progress_calls (new_events w (snd (run env w)))).
Proof.
  intros Hget Hcl Hsum.
  destruct (run_events_split env w) as (evs & tail & -> & Htail & Hevs).
  rewrite progress_calls_app.
  assert (Ht : progress_calls tail = []).
  { clear -Htail. unfold progress_calls.
    induction Htail as [|ev tail Hev _ IH]; [reflexivity|]. cbn. rewrite Hev. exact IH. }
  rewrite Ht, app_nil_r.
  destruct Hevs as [->|(link & title & _ & ->)]; [constructor|].
  destruct (download_events_declared env title)
    as [->|(r' & total' & Hget' & _ & Hcl' & Hne & ->)]; [constructor|].
  rewrite Hget in Hget'. injection Hget' as <-.
  rewrite Hcl in Hcl'. injection Hcl' as <-.
  assert (Hpos : 0 < total) by (pose proof (total_bytes_nonneg (body r)); lia).
  pose proof (loop_percentages_bounded env title total (LoopVars 0 0)
                (body r) Hpos ltac:(cbn; lia)) as Hhi.
  rewrite List.Forall_forall in Hhi. apply List.Forall_forall.
  intros [p answer] Hcall. split; [|exact (Hhi _ Hcall)].
  unfold progress_calls in Hcall. apply list_elem_of_In in Hcall.
  apply list_elem_of_omap in Hcall as (ev & Hev & Hpc).
  apply list_elem_of_In in Hev.
  destruct ev as [[shown| |] cid mid ans| | | |]; try discriminate.
  injection Hpc as <- <-.
  destruct (loop_bar_content env title total (LoopVars 0 0) (body r)
              shown cid mid ans ltac:(cbn; lia) ltac:(cbn; lra) Hev)
    as (k & _ & _ & _ & _ & _ & _ & H7 & _).
  exact H7.
Qed.

End Notifications.

(** * The text of the progress bar *)

Lemma py_int_nonneg (x : Q) : (0 <= x)%Q -> py_int x = Qfloor x.
Proof.
  destruct x as [n d]. unfold Qle, py_int, Qfloor. cbn [Qnum Qden].
  intros H. apply Z.quot_div_nonneg; lia.
Qed.

Lemma py_int_bounds (x : Q) :
  (0 <= x)%Q ->
  0 <= py_int x /\ (inject_Z (py_int x) <= x)%Q /\ (x < inject_Z (py_int x) + 1)%Q.
Proof.
  intros Hx. rewrite (py_int_nonneg x Hx). split; [|split].
  - change 0 with (Qfloor 0). apply Qfloor_resp_le, Hx.
  - apply Qfloor_le.
  - eapply Qlt_le_trans; [apply Qlt_floor|].
    rewrite inject_Z_plus. apply Qle_refl.
Qed.

Lemma length_times sym n : length (times sym n) = Z.to_nat n.
Proof. unfold times. apply repeat_length. Qed.

Lemma filled_length_bounds (percentage : Q) :
  (0 <= percentage)%Q ->
  0 <= filled_length percentage /\
  (inject_Z (filled_length percentage) <= percentage / 10)%Q /\
  (percentage / 10 < inject_Z (filled_length percentage) + 1)%Q.
Proof.
  intros Hp.
  assert (Heq : (inject_Z bar_length * percentage / 100 == percentage / 10)%Q).
  { unfold bar_length. change (inject_Z 10) with 10%Q. field. }
  assert (Hy : (0 <= inject_Z bar_length * percentage / 100)%Q).
  { rewrite Heq. apply Qle_shift_div_l; lra. }
  destruct (py_int_bounds _ Hy) as (H0 & Hlo & Hhi).
  fold (filled_length percentage) in H0, Hlo, Hhi.
  rewrite Heq in Hlo, Hhi. auto.
Qed.

Lemma bar_of_ten (percentage : Q) :
  (0 <= percentage)%Q ->
  (percentage < 110)%Q ->
  bar percentage =
    repeat Filled (Z.to_nat (filled_length percentage))
    ++ repeat Hollow (10 - Z.to_nat (filled_length percentage)) /\
  length (bar percentage) = 10%nat.
Proof.
  intros Hp H110.
  destruct (filled_length_bounds percentage Hp) as (H0 & Hlo & _).
  set (n := filled_length percentage) in *.
  assert (Hn : n <= 10).
  { assert (Hlt : (inject_Z n < inject_Z 11)%Q).
    { change (inject_Z 11) with 11%Q.
      assert (percentage / 10 < 11)%Q by (apply Qlt_shift_div_r; lra). lra. }
    rewrite <- Zlt_Qlt in Hlt. lia. }
  assert (Hbar : bar percentage =
                 repeat Filled (Z.to_nat n) ++ repeat Hollow (10 - Z.to_nat n)).
  { unfold bar, times. fold n. unfold bar_length.
    replace (Z.to_nat (10 - n)) with (10 - Z.to_nat n)%nat by lia. reflexivity. }
  split; [exact Hbar|].
  rewrite Hbar, length_app, !repeat_length. lia.
Qed.

(** X10. For a percentage that is not negative the bar starts with the
    whole tenths of the percentage as filled symbols. Below 110 percent it
    has exactly 10 symbols; from 110 percent on, which a body larger than
    the declared content-length produces, it has more than 10, all filled. *)
Theorem bar_symbols (percentage : Q) :
  (0 <= percentage)%Q ->
  0 <= filled_length percentage /\
  (inject_Z (filled_length percentage) <= percentage / 10)%Q /\
  (percentage / 10 < inject_Z (filled_length percentage) + 1)%Q /\
  ((percentage < 110)%Q ->
   bar percentage =
     repeat Filled (Z.to_nat (filled_length percentage))
     ++ repeat Hollow (10 - Z.to_nat (filled_length percentage)) /\
   length (bar percentage) = 10%nat) /\
  ((110 <= percentage)%Q ->
   bar percentage = repeat Filled (Z.to_nat (filled_length percentage)) /\
   (10 < length (bar percentage))%nat).
Proof.
  intros Hp.
  destruct (filled_length_bounds percentage Hp) as (H0 & Hlo & Hhi).
  split; [exact H0|]. split; [exact Hlo|]. split; [exact Hhi|].
  split; [apply bar_of_ten, Hp|].
  intros H110. set (n := filled_length percentage) in *.
  assert (Hn : 10 < n).
  { assert (Hlt : (inject_Z 11 < inject_Z (n + 1))%Q).
    { rewrite inject_Z_plus. change (inject_Z 11) with 11%Q.
      change (inject_Z 1) with 1%Q.
      assert (11 <= percentage / 10)%Q by (apply Qle_shift_div_l; lra). lra. }
    rewrite <- Zlt_Qlt in Hlt. lia. }
  assert (Hbar : bar percentage = repeat Filled (Z.to_nat n)).
  { unfold bar, times. fold n. unfold bar_length.
    replace (Z.to_nat (10 - n)) with 0%nat by lia. apply app_nil_r. }
  split; [exact Hbar|]. rewrite Hbar, repeat_length. lia.
Qed.

(** X11. In a transfer whose chunks carry no more bytes than the declared
    content-length, every progress notification shows between 7 and 100
    percent, and its bar has exactly 10 symbols. *)
Theorem shown_bar_has_ten_symbols chat_id message_id user_mention user_id
    env w r total shown cid mid answer :
  video_get env = Some r ->
  content_length r = ContentLength (Some total) ->
  total_bytes (body r) <= total ->
  In (EditMessageText (ProgressText shown) cid mid answer)
     (new_events w
        (snd (download_video chat_id message_id user_mention user_id env w))) ->
  (7 <= bar_percentage shown <= 100)%Q /\
  length (bar (bar_percentage shown)) = 10%nat.
Proof.
  intros Hget Hcl Hsum Hin.
  pose proof (run_percentages_bounded chat_id message_id user_mention user_id
                env w r total Hget Hcl Hsum) as Hall.
  rewrite List.Forall_forall in Hall.
  assert (Hcall : In (bar_percentage shown, answer)
                    (progress_calls
                       (new_events w
                          (snd (download_video chat_id message_id user_mention
                                  user_id env w))))).
  { unfold progress_calls. apply list_elem_of_In, list_elem_of_omap.
    eexists. split; [apply list_elem_of_In; exact Hin | reflexivity]. }
  specialize (Hall _ Hcall). cbn [fst] in Hall. split; [exact Hall|].
  assert (H0 : (0 <= bar_percentage shown)%Q) by lra.
  apply (bar_of_ten (bar_percentage shown) H0). lra.
Qed.

(** X12. [format_size] picks the unit so that the number shown is at least
    1 and below 1024 for KB and MB, at least 1 for GB, and an integer below
    1024 for B; the number times the unit is the size truncated to an
    integer. *)
Theorem format_size_units (size : Q) :
  (size_in_bytes (format_size size) == inject_Z (py_int size))%Q /\
  match format_size size with
  | SizeB n => n = py_int size /\ n < 1024
  | SizeKB v | SizeMB v => (1 <= v < 1024)%Q
  | SizeGB v => (1 <= v)%Q
  end.
Proof.
  unfold format_size. set (n := py_int size).
  destruct (Z.ltb_spec n 1024) as [H1|H1]; [cbn [size_in_bytes]; split; [reflexivity|auto]|].
  destruct (Z.ltb_spec n (1024 ^ 2)) as [H2|H2].
  { rewrite Zle_Qle in H1. rewrite Zlt_Qlt in H2.
    change (inject_Z 1024) with 1024%Q in H1.
    change (inject_Z (1024 ^ 2)) with 1048576%Q in H2.
    cbn [size_in_bytes]. split; [field|]. split.
    - apply Qle_shift_div_l; lra.
    - apply Qlt_shift_div_r; lra. }
  destruct (Z.ltb_spec n (1024 ^ 3)) as [H3|H3].
  { rewrite Zle_Qle in H2. rewrite Zlt_Qlt in H3.
    change (inject_Z (1024 ^ 2)) with 1048576%Q in *.
    change (inject_Z (1024 ^ 3)) with 1073741824%Q in H3.
    cbn [size_in_bytes]. change (inject_Z (1024 ^ 2)) with 1048576%Q.
    split; [field|]. split.
    - apply Qle_shift_div_l; lra.
    - apply Qlt_shift_div_r; lra. }
  rewrite Zle_Qle in H3.
  change (inject_Z (1024 ^ 3)) with 1073741824%Q in *.
  cbn [size_in_bytes]. change (inject_Z (1024 ^ 3)) with 1073741824%Q.
  split; [field|]. apply Qle_shift_div_l; lra.
Qed.

(** * The link pattern *)

Lemma append_empty (s : string) : EmptyString +:+ s = s.
Proof. reflexivity. Qed.

Lemma append_String (c : ascii) (s s' : string) :
  String c s +:+ s' = String c (s +:+ s').
Proof. reflexivity. Qed.

Lemma match_literal (l : string) (rest : list item) (s : string) :
  match_here (literal l ++ rest) s = true <->
  exists s', s = l +:+ s' /\ match_here rest s' = true.
Proof.
  revert s. induction l as [|c l IH]; intros s.
  - cbn. split; [eauto | intros (s' & -> & H); exact H].
  - cbn [literal list_ascii_of_string map app match_here].
    fold (literal l). destruct s as [|c' s].
    + split; [discriminate | intros (s' & H & _); discriminate].
    + cbn [atom_matches]. rewrite andb_true_iff, Ascii.eqb_eq, IH. split.
      * intros (-> & s' & -> & H). exists s'. auto.
      * intros (s' & Heq & H). rewrite ?append_String, ?append_empty in Heq. injection Heq as -> ->. eauto.
Qed.

Lemma match_star_any (rest : list item) (s : string) :
  match_here (Star AnyChar :: rest) s = true <->
  exists before after,
    s = before +:+ after /\ one_line before = true /\ match_here rest after = true.
Proof.
  induction s as [|c s IH].
  - cbn. rewrite orb_false_r. split.
    + intros H. exists EmptyString, EmptyString. auto.
    + intros (b & a & Heq & _ & H).
      destruct b; [|discriminate]. rewrite ?append_String, ?append_empty in Heq. subst a. exact H.
  - change (match_here (Star AnyChar :: rest) (String c s))
      with (match_here rest (String c s)
            || atom_matches AnyChar c && match_here (Star AnyChar :: rest) s).
    rewrite orb_true_iff, andb_true_iff, IH. cbn [atom_matches]. split.
    + intros [H|(Hc & b & a & -> & Hb & H)].
      * exists EmptyString, (String c s). auto.
      * exists (String c b), a. cbn [one_line]. rewrite Hc, Hb. auto.
    + intros (b & a & Heq & Hb & H). destruct b as [|c' b].
      * rewrite ?append_String, ?append_empty in Heq. subst a. auto.
      * rewrite ?append_String, ?append_empty in Heq. injection Heq as -> ->. cbn [one_line] in Hb.
        apply andb_true_iff in Hb as [Hc Hb]. right. split; [exact Hc|].
        exists b, a. auto.
Qed.

(** X13. The link check of line 242 accepts a text exactly when it starts
    with http:// or https:// and the word tera occurs after that with no
    newline before it; nothing more is asked of the host or of the rest. *)
Theorem tera_link_accepts (video_url : string) :
  is_tera_link video_url = true <->
  exists scheme before after,
    (scheme = "http://" \/ scheme = "https://") /\
    one_line before = true /\
    video_url = scheme +:+ before +:+ "tera" +:+ after.
Proof.
  unfold is_tera_link, tera_link. rewrite match_literal. split.
  - intros (s1 & -> & H).
    assert (Hs : exists scheme s2,
               (scheme = "http://" \/ scheme = "https://") /\
               "http" +:+ s1 = scheme +:+ s2 /\
               match_here (Star AnyChar :: literal "tera") s2 = true).
    { change (match_here (Optional (Literal "s") :: literal "://"
                            ++ Star AnyChar :: literal "tera") s1)
        with (match s1 with
              | String c s' =>
                  atom_matches (Literal "s") c
                  && match_here (literal "://" ++ Star AnyChar :: literal "tera") s'
              | EmptyString => false
              end
              || match_here (literal "://" ++ Star AnyChar :: literal "tera") s1)
        in H.
      apply orb_true_iff in H as [H|H].
      - destruct s1 as [|c s']; [discriminate|].
        apply andb_true_iff in H as [Hc H]. cbn [atom_matches] in Hc.
        apply Ascii.eqb_eq in Hc as <-.
        apply match_literal in H as (s2 & -> & H).
        exists "https://", s2. auto.
      - apply match_literal in H as (s2 & -> & H).
        exists "http://", s2. auto. }
    destruct Hs as (scheme & s2 & Hscheme & -> & H2).
    apply match_star_any in H2 as (before & rest & -> & Hb & H3).
    pose proof (match_literal "tera" [] rest) as Hlit.
    rewrite app_nil_r in Hlit. apply Hlit in H3 as (after & -> & _).
    exists scheme, before, after. auto.
  - intros (scheme & before & after & Hscheme & Hb & ->).
    assert (Hrest : match_here (Star AnyChar :: literal "tera")
                      (before +:+ "tera" +:+ after) = true).
    { apply match_star_any. exists before, ("tera" +:+ after).
      split; [reflexivity|]. split; [exact Hb|].
      pose proof (match_literal "tera" [] ("tera" +:+ after)) as Hlit.
      rewrite app_nil_r in Hlit. apply Hlit. exists after. auto. }
    destruct Hscheme as [-> | ->].
    + exists ("://" +:+ before +:+ "tera" +:+ after). split; [reflexivity|].
      change (match_here (Optional (Literal "s") :: literal "://"
                            ++ Star AnyChar :: literal "tera")
                ("://" +:+ before +:+ "tera" +:+ after))
        with (false || match_here (literal "://" ++ Star AnyChar :: literal "tera")
                         ("://" +:+ before +:+ "tera" +:+ after)).
      cbn [orb]. apply match_literal. eauto.
    + exists ("s://" +:+ before +:+ "tera" +:+ after). split; [reflexivity|].
      change (match_here (Optional (Literal "s") :: literal "://"
                            ++ Star AnyChar :: literal "tera")
                ("s://" +:+ before +:+ "tera" +:+ after))
        with (true && match_here (literal "://" ++ Star AnyChar :: literal "tera")
                        ("://" +:+ before +:+ "tera" +:+ after)
              || match_here (literal "://" ++ Star AnyChar :: literal "tera")
                   ("s://" +:+ before +:+ "tera" +:+ after)).
      cbn [andb]. apply orb_true_iff. left. apply match_literal. eauto.
Qed.

(** * The message handlers *)

Lemma call_run benv c w :
  call benv c w =
  (match api benv c with None => inr tt | Some e => inl (Py e) end,
   mkBot (disk w) (users w) (banned w) (happened w ++ [Called c (api benv c)])).
Proof.
  unfold call, bindB, note, retB, raiseB. destruct (api benv c); reflexivity.
Qed.

Lemma is_member_run benv uid w :
  is_member benv uid w =
  match api benv (GetChatMember "-1001911851456" uid) with
  | None =>
      (inr (List.existsb (String.eqb (member_status benv))
              ["member"; "administrator"; "creator"]),
       mkBot (disk w) (users w) (banned w)
             (happened w ++ [Called (GetChatMember "-1001911851456" uid) None]))
  | Some e =>
      (inr false,
       mkBot (disk w) (users w) (banned w)
             (happened w ++ [Called (GetChatMember "-1001911851456" uid) (Some e);
                             LogWarning_membership uid (Py e)]))
  end.
Proof.
  unfold is_member, try_exceptB, bindB. rewrite call_run.
  destruct (api benv (GetChatMember "-1001911851456" uid)); cbn.
  - rewrite <- app_assoc. reflexivity.
  - reflexivity.
Qed.

Lemma new_happened_app w d u b evs :
  new_happened w (mkBot d u b (happened w ++ evs)) = evs.
Proof. unfold new_happened. cbn [happened]. apply drop_app_length. Qed.

Lemma new_happened_same w : new_happened w w = [].
Proof. unfold new_happened. apply drop_all. Qed.

Lemma bot_world_eta w : mkBot (disk w) (users w) (banned w) (happened w) = w.
Proof. destruct w; reflexivity. Qed.

(** The handler up to the link check: whether it goes on to the download,
    and the world then. *)
Lemma handle_message_gate benv message w :
  let user := from_user message in
  let chat_id := chat_of message in
  let member_call := GetChatMember "-1001911851456" (id_of user) in
  (String.prefix "/" (text_of message) = false /\
   api benv (SendChatAction chat_id) = None /\
   (id_of user ∉ banned w) /\
   api benv member_call = None /\
   List.existsb (String.eqb (member_status benv))
     ["member"; "administrator"; "creator"] = true /\
   is_tera_link (text_of message) = true /\
   handle_message benv message w =
     bindB (call benv (SendMessage chat_id DownloadingText))
       (fun _ =>
          try_exceptB
            (handle_message_try benv message (progress_message_id benv))
            (fun e =>
               note (LogError_video e) ;;;
               call benv
                 (EditMessage chat_id (progress_message_id benv) (FailedText e))))
       (mkBot (disk w) (users w) (banned w)
          (happened w ++ [Called (SendChatAction chat_id) None;
                          Called member_call None]))) \/
  ((String.prefix "/" (text_of message) = true \/
    api benv (SendChatAction chat_id) <> None \/
    (id_of user ∈ banned w) \/
    api benv member_call <> None \/
    List.existsb (String.eqb (member_status benv))
      ["member"; "administrator"; "creator"] = false \/
    is_tera_link (text_of message) = false) /\
   exists result evs,
     handle_message benv message w =
       (result, mkBot (disk w) (users w) (banned w) (happened w ++ evs)) /\
     List.existsb is_download_event evs = false /\
     match result with
     | inr _ => True
     | inl x => exists c e, api benv c = Some e /\ x = Py e
     end).
Proof.
  cbv zeta. remember (handle_message benv message w) as out eqn:Hout.
  unfold handle_message in Hout.
  destruct (String.prefix "/" (text_of message)) eqn:Hcmd.
  { right. split; [auto|]. exists (inr tt), [].
    unfold retB in Hout. rewrite app_nil_r, bot_world_eta. auto. }
  unfold bindB at 1 in Hout. rewrite call_run in Hout.
  destruct (api benv (SendChatAction (chat_of message))) as [e|] eqn:Hact.
  { right. split; [right; left; congruence|]. do 2 eexists.
    split; [exact Hout|]. split; [reflexivity|]. eauto. }
  unfold bindB at 1 in Hout. unfold is_banned at 1 in Hout.
  cbn [disk users banned happened] in Hout.
  destruct (decide (id_of (from_user message) ∈ banned w)) as [Hban|Hban].
  { rewrite (bool_decide_eq_true_2 _ Hban), call_run in Hout.
    cbn [disk users banned happened] in Hout. rewrite <- app_assoc in Hout.
    right. split; [auto|]. do 2 eexists.
    split; [exact Hout|]. split; [reflexivity|].
    destruct (api benv (SendMessage (chat_of message) BannedText)) eqn:E; eauto. }
  rewrite (bool_decide_eq_false_2 _ Hban) in Hout.
  unfold bindB at 1 in Hout. rewrite is_member_run in Hout.
  cbn [disk users banned happened] in Hout.
  destruct (api benv (GetChatMember "-1001911851456" (id_of (from_user message))))
    as [e|] eqn:Hmem.
  { cbn [negb] in Hout. rewrite call_run in Hout.
    cbn [disk users banned happened] in Hout. rewrite <- !app_assoc in Hout.
    right. split; [do 3 right; left; congruence|]. do 2 eexists.
    split; [exact Hout|]. split; [reflexivity|].
    destruct (api benv (SendMessage (chat_of message) JoinText)) eqn:E; eauto. }
  rewrite <- !app_assoc in Hout. cbn [app] in Hout.
  destruct (List.existsb (String.eqb (member_status benv))
              ["member"; "administrator"; "creator"]) eqn:Hst.
  2: { cbn [negb] in Hout. rewrite call_run in Hout.
       cbn [disk users banned happened] in Hout. rewrite <- !app_assoc in Hout.
       right. split; [auto 6|]. do 2 eexists.
       split; [exact Hout|]. split; [reflexivity|].
       destruct (api benv (SendMessage (chat_of message) JoinText)) eqn:E; eauto. }
  cbn [negb] in Hout.
  destruct (is_tera_link (text_of message)) eqn:Hlink.
  - left. auto 10.
  - rewrite call_run in Hout. cbn [disk users banned happened] in Hout.
    rewrite <- !app_assoc in Hout.
    right. split; [auto 7|]. do 2 eexists.
    split; [exact Hout|]. split; [reflexivity|].
    destruct (api benv (SendMessage (chat_of message) InvalidLinkText)) eqn:E; eauto.
Qed.

(** X14. A command, a failing typing action, a banned sender, a sender
    whose membership cannot be confirmed, or a text that is no tera link:
    in each case the handler starts no download and leaves the database,
    and every file other than the logger's bot.log, as they were. *)
Theorem refused_message_downloads_nothing benv message w :
  String.prefix "/" (text_of message) = true \/
  api benv (SendChatAction (chat_of message)) <> None \/
  (id_of (from_user message) ∈ banned w) \/
  api benv (GetChatMember "-1001911851456" (id_of (from_user message))) <> None \/
  List.existsb (String.eqb (member_status benv))
    ["member"; "administrator"; "creator"] = false \/
  is_tera_link (text_of message) = false ->
  (forall path, path <> "bot.log" ->
     disk (snd (handle_message benv message w)) !! path = disk w !! path) /\
  users (snd (handle_message benv message w)) = users w /\
  List.existsb is_download_event
    (new_happened w (snd (handle_message benv message w))) = false.
Proof.
  intros Hrefused.
  destruct (handle_message_gate benv message w)
    as [(H1 & H2 & H3 & H4 & H5 & H6 & _)|(_ & result & evs & -> & Hev & _)].
  - exfalso. cbv zeta in *.
    destruct Hrefused as [H|[H|[H|[H|[H|H]]]]]; congruence || contradiction.
  - cbn [snd disk users]. rewrite new_happened_app. auto.
Qed.

(** X15. Whatever [download_video] raises is caught: an exception leaves
    the message handler only when the chat API itself refuses one of the
    handler's calls, and it is then the exception of that call. *)
Theorem handler_raises_only_chat_api_errors benv message w x :
  fst (handle_message benv message w) = inl x ->
  exists c e, api benv c = Some e /\ x = Py e.
Proof.
  intros Hx.
  destruct (handle_message_gate benv message w)
    as [(_ & _ & _ & _ & _ & _ & Heq)|(_ & result & evs & Heq & _ & Hres)];
    cbv zeta in Heq; rewrite Heq in Hx; cbn [fst] in Hx.
  - unfold bindB at 1 in Hx. rewrite call_run in Hx.
    destruct (api benv (SendMessage (chat_of message) DownloadingText)) eqn:E.
    { injection Hx as <-. eauto. }
    unfold try_exceptB in Hx.
    destruct (handle_message_try _ _ _ _) as [[x'|[]] w2]; [|discriminate].
    unfold bindB, note in Hx. rewrite call_run in Hx.
    destruct (api benv (EditMessage (chat_of message) (progress_message_id benv)
                          (FailedText x'))) eqn:E'; [|discriminate].
    injection Hx as <-. eauto.
  - subst result. exact Hres.
Qed.

(** X16. [send_welcome] registers the sender once: after the typing action
    went through, a sender without a document has one with 0 downloads and
    the first name, a sender with a document keeps it as it is, and no other
    document changes; when the typing action fails nothing is registered. *)
Theorem welcome_registers_once benv message w :
  (api benv (SendChatAction (chat_of message)) = None ->
   users (snd (send_welcome benv message w)) !! id_of (from_user message) =
     Some (match users w !! id_of (from_user message) with
           | Some doc => doc
           | None => UserDoc (Some (first_name_of (from_user message))) 0
           end) /\
   forall other,
     other <> id_of (from_user message) ->
     users (snd (send_welcome benv message w)) !! other = users w !! other) /\
  (api benv (SendChatAction (chat_of message)) <> None ->
   users (snd (send_welcome benv message w)) = users w).
Proof.
  remember (send_welcome benv message w) as out eqn:Hout.
  unfold send_welcome in Hout. cbv zeta in Hout.
  unfold bindB at 1 in Hout. rewrite call_run in Hout.
  destruct (api benv (SendChatAction (chat_of message))) as [e|].
  { subst out. split; [discriminate | reflexivity]. }
  split; [intros _ | intros H; contradiction].
  unfold bindB at 1 in Hout. unfold find_user at 1 in Hout.
  cbn [disk users banned happened] in Hout.
  destruct (users w !! id_of (from_user message)) as [doc|] eqn:Hdoc.
  - unfold bindB, retB in Hout. rewrite call_run in Hout. subst out.
    cbn [snd users]. auto.
  - unfold bindB, insert_user in Hout. cbn [disk users banned happened] in Hout.
    rewrite call_run in Hout. subst out. cbn [snd users]. split.
    + apply lookup_insert_eq.
    + intros other Hne. apply lookup_insert_ne. congruence.
Qed.

(** *** The [try] block of [handle_message] *)

Lemma after_download_run benv chat pid mid uid path title size w1 content :
  disk w1 !! path = Some content ->
  let rest :=
    (call benv (EditMessage chat pid SendingText) ;;;
     open_rb path ;;;
     call benv (SendVideo (dump_chat_id benv) path title size) ;;;
     call benv (CopyMessage chat (dump_chat_id benv) (sent_video_id benv)) ;;;
     call benv (SendSticker chat) ;;;
     count_download uid ;;;
     call benv (DeleteMessage chat pid) ;;;
     call benv (DeleteMessage chat mid) ;;;
     os_remove path) in
  ((forall c, In c (after_download_calls benv chat pid mid path title size) ->
              api benv c = None) /\
   fst (rest w1) = inr tt /\
   disk (snd (rest w1)) = delete path (disk w1) /\
   users (snd (rest w1)) = counted uid (users w1)) \/
  (exists c e,
     In c (after_download_calls benv chat pid mid path title size) /\
     api benv c = Some e /\
     fst (rest w1) = inl (Py e) /\
     disk (snd (rest w1)) = disk w1).
Proof.
  intros Hfile. cbv zeta.
  remember ((call benv (EditMessage chat pid SendingText) ;;;
             open_rb path ;;;
             call benv (SendVideo (dump_chat_id benv) path title size) ;;;
             call benv (CopyMessage chat (dump_chat_id benv) (sent_video_id benv)) ;;;
             call benv (SendSticker chat) ;;;
             count_download uid ;;;
             call benv (DeleteMessage chat pid) ;;;
             call benv (DeleteMessage chat mid) ;;;
             os_remove path) w1) as out eqn:Hout.
  unfold after_download_calls.
  unfold bindB at 1 in Hout. rewrite call_run in Hout.
  destruct (api benv (EditMessage chat pid SendingText)) as [e|] eqn:E1.
  { right. subst out. exists (EditMessage chat pid SendingText), e. cbn. auto. }
  unfold bindB at 1 in Hout. unfold open_rb at 1 in Hout.
  cbn [disk users banned happened] in Hout. rewrite Hfile in Hout.
  unfold bindB at 1 in Hout. rewrite call_run in Hout.
  destruct (api benv (SendVideo (dump_chat_id benv) path title size)) as [e|] eqn:E2.
  { right. subst out. exists (SendVideo (dump_chat_id benv) path title size), e.
    cbn. auto. }
  unfold bindB at 1 in Hout. rewrite call_run in Hout.
  destruct (api benv (CopyMessage chat (dump_chat_id benv) (sent_video_id benv)))
    as [e|] eqn:E3.
  { right. subst out.
    exists (CopyMessage chat (dump_chat_id benv) (sent_video_id benv)), e.
    cbn. auto 6. }
  unfold bindB at 1 in Hout. rewrite call_run in Hout.
  destruct (api benv (SendSticker chat)) as [e|] eqn:E4.
  { right. subst out. exists (SendSticker chat), e. cbn. auto 7. }
  unfold bindB at 1 in Hout. unfold count_download at 1 in Hout.
  cbn [disk users banned happened] in Hout. fold (counted uid (users w1)) in Hout.
  unfold bindB at 1 in Hout. rewrite call_run in Hout.
  destruct (api benv (DeleteMessage chat pid)) as [e|] eqn:E5.
  { right. subst out. exists (DeleteMessage chat pid), e. cbn. auto 8. }
  unfold bindB at 1 in Hout. rewrite call_run in Hout.
  destruct (api benv (DeleteMessage chat mid)) as [e|] eqn:E6.
  { right. subst out. exists (DeleteMessage chat mid), e. cbn. auto 9. }
  unfold os_remove in Hout. cbn [disk users banned happened] in Hout.
  rewrite Hfile in Hout. left. subst out. cbn [fst snd disk users].
  split; [|auto].
  intros c Hc. cbn [In] in Hc.
  repeat destruct Hc as [<-|Hc]; try assumption. destruct Hc.
Qed.

Lemma handle_message_try_run benv message pid w :
  let user := from_user message in
  let out := download_video (chat_of message) pid (mention user) (id_of user)
               (download_env benv) (mkWorld (disk w) []) in
  let w1 := mkBot (fs (snd out)) (users w) (banned w)
              (happened w ++ map Downloading (trace (snd out))) in
  handle_message_try benv message pid w =
  match fst out with
  | inl e => (inl (Py e), w1)
  | inr (path, title, size) =>
      (call benv (EditMessage (chat_of message) pid SendingText) ;;;
       open_rb path ;;;
       call benv (SendVideo (dump_chat_id benv) path title size) ;;;
       call benv (CopyMessage (chat_of message) (dump_chat_id benv)
                    (sent_video_id benv)) ;;;
       call benv (SendSticker (chat_of message)) ;;;
       count_download (id_of user) ;;;
       call benv (DeleteMessage (chat_of message) pid) ;;;
       call benv (DeleteMessage (chat_of message) (message_id_of message)) ;;;
       os_remove path) w1
  end.
Proof.
  cbv zeta. unfold handle_message_try. cbv zeta.
  unfold bindB at 1. unfold run_download_video. cbv zeta.
  destruct (fst (download_video _ _ _ _ _ _)) as [e|[[path title] size]];
    reflexivity.
Qed.

(** The handler once the message is let through and the download
    announced. *)
Lemma handle_message_let_through benv message w :
  String.prefix "/" (text_of message) = false ->
  api benv (SendChatAction (chat_of message)) = None ->
  id_of (from_user message) ∉ banned w ->
  api benv (GetChatMember "-1001911851456" (id_of (from_user message))) = None ->
  List.existsb (String.eqb (member_status benv))
    ["member"; "administrator"; "creator"] = true ->
  is_tera_link (text_of message) = true ->
  api benv (SendMessage (chat_of message) DownloadingText) = None ->
  handle_message benv message w =
  try_exceptB
    (handle_message_try benv message (progress_message_id benv))
    (fun e =>
       note (LogError_video e) ;;;
       call benv (EditMessage (chat_of message) (progress_message_id benv)
                    (FailedText e)))
    (mkBot (disk w) (users w) (banned w)
       (happened w
        ++ [Called (SendChatAction (chat_of message)) None;
            Called (GetChatMember "-1001911851456" (id_of (from_user message))) None;
            Called (SendMessage (chat_of message) DownloadingText) None])).
Proof.
  intros Hcmd Hact Hban Hmem Hst Hlink Hsend.
  destruct (handle_message_gate benv message w)
    as [(_ & _ & _ & _ & _ & _ & Heq)|(Hno & _)].
  - cbv zeta in Heq. rewrite Heq. unfold bindB at 1. rewrite call_run, Hsend.
    cbn [disk users banned happened]. rewrite <- app_assoc. reflexivity.
  - exfalso. cbv zeta in Hno.
    destruct Hno as [H|[H|[H|[H|[H|H]]]]]; congruence || contradiction.
Qed.


Lemma try_exceptB_caught {A} (m : B A) h w x :
  fst (m w) = inl x -> try_exceptB m h w = h x (snd (m w)).
Proof.
  unfold try_exceptB. destruct (m w) as [[x'|a'] w']; cbn [fst snd];
    [intros [= ->]; reflexivity | discriminate].
Qed.

Lemma handler_after_failure benv chat pid x w2 :
  (note (LogError_video x) ;;; call benv (EditMessage chat pid (FailedText x))) w2 =
  (match api benv (EditMessage chat pid (FailedText x)) with
   | None => inr tt
   | Some e => inl (Py e)
   end,
   mkBot (disk w2) (users w2) (banned w2)
         (happened w2
          ++ [LogError_video x;
              Called (EditMessage chat pid (FailedText x))
                (api benv (EditMessage chat pid (FailedText x)))])).
Proof.
  unfold bindB, note. rewrite call_run. cbn [disk users banned happened].
  rewrite <- app_assoc. reflexivity.
Qed.

(** X17. When [download_video] raises inside the handler, the handler logs
    it and edits the progress message with a Download failed text, after
    [download_video] has already put its own error text there; it returns
    normally unless that edit is refused. Every file other than the
    logger's bot.log stays as [download_video] left it, so a partial file
    is not removed, and no download is counted. *)
Theorem failed_download_is_reported_twice benv message w e :
  String.prefix "/" (text_of message) = false ->
  api benv (SendChatAction (chat_of message)) = None ->
  id_of (from_user message) ∉ banned w ->
  api benv (GetChatMember "-1001911851456" (id_of (from_user message))) = None ->
  List.existsb (String.eqb (member_status benv))
    ["member"; "administrator"; "creator"] = true ->
  is_tera_link (text_of message) = true ->
  api benv (SendMessage (chat_of message) DownloadingText) = None ->
  fst (download_video (chat_of message) (progress_message_id benv)
         (mention (from_user message)) (id_of (from_user message))
         (download_env benv) (mkWorld (disk w) [])) = inl e ->
  let downloaded :=
    snd (download_video (chat_of message) (progress_message_id benv)
           (mention (from_user message)) (id_of (from_user message))
           (download_env benv) (mkWorld (disk w) [])) in
  let failed_edit :=
    EditMessage (chat_of message) (progress_message_id benv) (FailedText (Py e)) in
  fst (handle_message benv message w) =
    match api benv failed_edit with
    | None => inr tt
    | Some e' => inl (Py e')
    end /\
  (forall path, path <> "bot.log" ->
     disk (snd (handle_message benv message w)) !! path = fs downloaded !! path) /\
  users (snd (handle_message benv message w)) = users w /\
  List.existsb is_error_edit (trace downloaded) = true /\
  new_happened w (snd (handle_message benv message w)) =
    [Called (SendChatAction (chat_of message)) None;
     Called (GetChatMember "-1001911851456" (id_of (from_user message))) None;
     Called (SendMessage (chat_of message) DownloadingText) None]
    ++ map Downloading (trace downloaded)
    ++ [LogError_video (Py e); Called failed_edit (api benv failed_edit)].
Proof.
  intros Hcmd Hact Hban Hmem Hst Hlink Hsend Hdl. cbv zeta.
  rewrite (handle_message_let_through benv message w Hcmd Hact Hban Hmem Hst Hlink Hsend).
  unfold try_exceptB. rewrite handle_message_try_run. cbv zeta.
  cbn [disk users banned happened]. rewrite Hdl, handler_after_failure.
  cbn [fst snd disk users banned happened].
  rewrite <- !app_assoc, new_happened_app.
  repeat split.
  exact (run_failure_has_error_text (chat_of message) (progress_message_id benv)
           (mention (from_user message)) (id_of (from_user message))
           (download_env benv) (mkWorld (disk w) []) e Hdl).
Qed.


(** X19. When the download succeeded but the chat API refuses one of the
    calls that follow it (the edit, the video, the copy, the sticker, the
    two deletions), the handler reports the failure in the progress message
    and never reaches the removal of line 270: the downloaded file stays on
    disk. *)
Theorem delivery_failure_keeps_the_file benv message w path title size :
  String.prefix "/" (text_of message) = false ->
  api benv (SendChatAction (chat_of message)) = None ->
  id_of (from_user message) ∉ banned w ->
  api benv (GetChatMember "-1001911851456" (id_of (from_user message))) = None ->
  List.existsb (String.eqb (member_status benv))
    ["member"; "administrator"; "creator"] = true ->
  is_tera_link (text_of message) = true ->
  api benv (SendMessage (chat_of message) DownloadingText) = None ->
  fst (download_video (chat_of message) (progress_message_id benv)
         (mention (from_user message)) (id_of (from_user message))
         (download_env benv) (mkWorld (disk w) [])) = inr (path, title, size) ->
  (exists c,
     In c (after_download_calls benv (chat_of message) (progress_message_id benv)
             (message_id_of message) path title size) /\
     api benv c <> None) ->
  exists c e,
    In c (after_download_calls benv (chat_of message) (progress_message_id benv)
            (message_id_of message) path title size) /\
    api benv c = Some e /\
    fst (handle_message benv message w) =
      match api benv (EditMessage (chat_of message) (progress_message_id benv)
                        (FailedText (Py e))) with
      | None => inr tt
      | Some e' => inl (Py e')
      end /\
    disk (snd (handle_message benv message w)) =
      fs (snd (download_video (chat_of message) (progress_message_id benv)
                 (mention (from_user message)) (id_of (from_user message))
                 (download_env benv) (mkWorld (disk w) []))) /\
    is_Some (disk (snd (handle_message benv message w)) !! path).
Proof.
  intros Hcmd Hact Hban Hmem Hst Hlink Hsend Hdl (c0 & Hin0 & Hc0).
  rewrite (handle_message_let_through benv message w Hcmd Hact Hban Hmem Hst Hlink Hsend).
  destruct (run_inr_inv _ _ _ _ _ _ _ _ _ Hdl) as (link & _ & _ & _ & Hrun).
  match goal with
  | |- context [try_exceptB _ _ ?w0] =>
      pose proof (handle_message_try_run benv message (progress_message_id benv) w0)
        as Hm
  end.
  cbv zeta in Hm. cbn [disk users banned happened] in Hm.
  rewrite Hdl, Hrun in Hm. cbn [snd fs trace] in Hm.
  match type of Hm with
  | _ = _ (mkBot ?d ?u ?b ?h) =>
      destruct (after_download_run benv (chat_of message) (progress_message_id benv)
                  (message_id_of message) (id_of (from_user message))
                  path title size (mkBot d u b h) _ (lookup_insert_eq _ _ _))
        as [(Hnone & _)|(c & e & Hin & Hc & Hfst & Hdisk)]
  end.
  { destruct Hc0. apply Hnone, Hin0. }
  cbv zeta in Hfst, Hdisk. rewrite <- Hm in Hfst, Hdisk.
  exists c, e. split; [exact Hin|]. split; [exact Hc|].
  rewrite (try_exceptB_caught _ _ _ _ Hfst), handler_after_failure.
  cbn [fst snd disk]. rewrite Hdisk, Hrun. cbn [disk snd fs].
  repeat split. rewrite lookup_insert_eq. eauto.
Qed.

(** * The further properties at concrete inputs *)

Lemma failed_request_leaves_empty_file_witness :
  (exists e, fst (download_video 1 2 "u" 3 not_found_env
                    (mkWorld {["Videos/clip.mp4" := bytes3]} [])) = inl e) /\
  fs (snd (download_video 1 2 "u" 3 not_found_env
             (mkWorld {["Videos/clip.mp4" := bytes3]} [])))
    !! video_path_of "clip" = Some [].
Proof.
  apply (failed_request_leaves_empty_file 1 2 "u" 3 not_found_env
           (mkWorld {["Videos/clip.mp4" := bytes3]} [])
           (JStr "https://host/clip") "clip").
  - reflexivity.
  - left. cbn. lia.
Defined.


Lemma resolved_title_has_no_unsafe_character_witness :
  ~ In "c"%char ["<"; ">"; ":"; ascii_of_nat 34; "/"; "\"; "|"; "?"; "*"]%char.
Proof.
  apply (resolved_title_has_no_unsafe_character exact_body_env
           (JStr "https://host/clip") "clip" "c"%char).
  - reflexivity.
  - cbn. auto.
Defined.

Lemma at_most_fourteen_delivered_witness :
  total_bytes (body hundred_chunks) <= 100 /\
  (length (delivered_percentages
             (new_events empty_world
                (snd (download_video 1 2 "u" 3 hundred_chunks_env empty_world))))
   <= 14)%nat.
Proof.
  split; [vm_compute; discriminate|].
  apply (at_most_fourteen_delivered 1 2 "u" 3 hundred_chunks_env empty_world
           hundred_chunks 100).
  - reflexivity.
  - reflexivity.
  - vm_compute. discriminate.
Defined.

Lemma progress_notification_content_witness :
  In (EditMessageText (ProgressText full_bar) 1 2 None)
     (new_events empty_world (snd (download_video 1 2 "u" 3 exact_body_env empty_world)))
  /\ (7 <= bar_percentage full_bar)%Q.
Proof.
  assert (Hin : In (EditMessageText (ProgressText full_bar) 1 2 None)
                  (new_events empty_world
                     (snd (download_video 1 2 "u" 3 exact_body_env empty_world))))
    by (left; reflexivity).
  split; [exact Hin|].
  destruct (progress_notification_content 1 2 "u" 3 exact_body_env empty_world
              full_bar 1 2 None Hin)
    as (link & title & r & total & k & _ & _ & _ & _ & _ & _ & _ & _ & _ & H7 & _).
  exact H7.
Defined.

Lemma bar_symbols_witness :
  (0 <= 35)%Q /\ length (bar 35) = 10%nat /\ filled_length 35 = 3.
Proof.
  assert (H0 : (0 <= 35)%Q) by (vm_compute; discriminate).
  split; [exact H0|].
  split; [|reflexivity].
  apply (proj1 (proj2 (proj2 (proj2 (bar_symbols 35 H0))))).
  vm_compute. reflexivity.
Defined.

Lemma shown_bar_has_ten_symbols_witness :
  (7 <= bar_percentage full_bar <= 100)%Q /\
  length (bar (bar_percentage full_bar)) = 10%nat.
Proof.
  apply (shown_bar_has_ten_symbols 1 2 "u" 3 exact_body_env empty_world exact_body 3
           full_bar 1 2 None).
  - reflexivity.
  - reflexivity.
  - vm_compute. discriminate.
  - left. reflexivity.
Defined.

Lemma only_the_video_file_is_touched_witness :
  "notes.txt" <> "bot.log" /\
  (fs (snd (download_video 1 2 "u" 3 exact_body_env empty_world)) !! "notes.txt"
   = fs empty_world !! "notes.txt" \/
   exists link title,
     resolve exact_body_env = inr (link, title) /\ "notes.txt" = video_path_of title).
Proof.
  split; [discriminate|].
  apply (only_the_video_file_is_touched 1 2 "u" 3 exact_body_env empty_world "notes.txt").
  discriminate.
Defined.

Lemma refused_message_downloads_nothing_witness :
  String.prefix "/" (text_of start_message) = true /\
  (forall path, path <> "bot.log" ->
     disk (snd (handle_message willing_env start_message empty_bot_world)) !! path
     = disk empty_bot_world !! path) /\
  users (snd (handle_message willing_env start_message empty_bot_world))
    = users empty_bot_world /\
  List.existsb is_download_event
    (new_happened empty_bot_world
       (snd (handle_message willing_env start_message empty_bot_world))) = false.
Proof.
  split; [reflexivity|].
  apply (refused_message_downloads_nothing willing_env start_message empty_bot_world).
  left. reflexivity.
Defined.

Lemma handler_raises_only_chat_api_errors_witness :
  fst (handle_message silent_env tera_message empty_bot_world)
    = inl (Py ApiTelegramException) /\
  exists c e, api silent_env c = Some e /\ Py ApiTelegramException = Py e.
Proof.
  assert (H : fst (handle_message silent_env tera_message empty_bot_world)
              = inl (Py ApiTelegramException)) by reflexivity.
  split; [exact H|].
  exact (handler_raises_only_chat_api_errors silent_env tera_message empty_bot_world
           (Py ApiTelegramException) H).
Defined.

Lemma failed_download_is_reported_twice_witness :
  fst (handle_message broken_download_env tera_message empty_bot_world) = inr tt /\
  users (snd (handle_message broken_download_env tera_message empty_bot_world))
    = users empty_bot_world /\
  disk (snd (handle_message broken_download_env tera_message empty_bot_world))
    !! "Videos/clip.mp4" = Some bytes3.
Proof.
  assert (Hdl : fst (download_video (chat_of tera_message)
                       (progress_message_id broken_download_env)
                       (mention (from_user tera_message))
                       (id_of (from_user tera_message))
                       (download_env broken_download_env)
                       (mkWorld (disk empty_bot_world) []))
                = inl RequestException) by (vm_compute; reflexivity).
  destruct (failed_download_is_reported_twice broken_download_env tera_message
              empty_bot_world RequestException
              eq_refl eq_refl (not_elem_of_empty _) eq_refl eq_refl eq_refl eq_refl Hdl)
    as (Hfst & Hdisk & Husers & _).
  split; [exact Hfst|]. split; [exact Husers|].
  rewrite (Hdisk "Videos/clip.mp4") by discriminate. vm_compute. reflexivity.
Defined.


Lemma delivery_failure_keeps_the_file_witness :
  api video_refusing_env
    (SendVideo (dump_chat_id video_refusing_env) "Videos/clip.mp4" "clip" 3) <> None /\
  is_Some (disk (snd (handle_message video_refusing_env tera_message empty_bot_world))
             !! "Videos/clip.mp4").
Proof.
  assert (Hrefused : api video_refusing_env
                       (SendVideo (dump_chat_id video_refusing_env)
                          "Videos/clip.mp4" "clip" 3) <> None) by discriminate.
  split; [exact Hrefused|].
  assert (Hdl : fst (download_video (chat_of tera_message)
                       (progress_message_id video_refusing_env)
                       (mention (from_user tera_message))
                       (id_of (from_user tera_message))
                       (download_env video_refusing_env)
                       (mkWorld (disk empty_bot_world) []))
                = inr ("Videos/clip.mp4", "clip", 3)) by (vm_compute; reflexivity).
  destruct (delivery_failure_keeps_the_file video_refusing_env tera_message
              empty_bot_world "Videos/clip.mp4" "clip" 3
              eq_refl eq_refl (not_elem_of_empty _) eq_refl eq_refl eq_refl eq_refl Hdl
              (ex_intro _ _ (conj (or_intror (or_introl eq_refl)) Hrefused)))
    as (c & e & _ & _ & _ & _ & Hfile).
  exact Hfile.
Defined.
